(** * A shallow embedding of the site monitor (src/monitor.py, src/app.py,
    src/database.py) and the properties of its probes and of its
    status-transition detection. *)

From Stdlib Require Import ZArith Lia.
From stdpp Require Import base gmap strings pretty list.

Open Scope string_scope.
Open Scope Z_scope.
Open Scope list_scope.

(* ------------------------------------------------------------------ *)
(** ** Python values used by the monitor *)

(** Python exceptions the probes distinguish.  Each constructor stands for
    the most specific class an [except] clause of the source catches. *)
Inductive ExnKind :=
| ReqTimeout          (* requests.exceptions.Timeout *)
| ReqSSLError         (* requests.exceptions.SSLError *)
| ReqConnectionError  (* requests.exceptions.ConnectionError *)
| SockTimeout         (* socket.timeout *)
| SslError            (* ssl.SSLError *)
| ValueError
| KeyError
| AttributeError
| OtherError.

Record PyExn := mkExn { exn_kind : ExnKind; exn_str : string }.

(** A Python computation either returns or raises. *)
Inductive Exc (A : Type) :=
| Ok (a : A)
| Raise (e : PyExn).
Arguments Ok {A} a.
Arguments Raise {A} e.

(** [str(e)[:n]]: a prefix of the message. *)
Definition py_prefix (n : nat) (s : string) : string := String.substring 0 n s.

(** Text is held as its UTF-8 bytes.  [utf8_decode] reads the code points
    back; a byte that does not start a well-formed sequence is kept as it
    is ([UByte]), which text read from the database never holds. *)
Inductive UChar :=
| UCp (cp : Z)
| UByte (b : Ascii.ascii).

Definition byte_val (c : Ascii.ascii) : Z := Z.of_nat (Ascii.nat_of_ascii c).

Definition byte_of (z : Z) : Ascii.ascii := Ascii.ascii_of_nat (Z.to_nat z).

Definition is_cont (c : Ascii.ascii) : bool := (128 <=? byte_val c) && (byte_val c <? 192).

Fixpoint utf8_decode (s : string) : list UChar :=
  match s with
  | EmptyString => []
  | String b s1 =>
      let v := byte_val b in
      if v <? 128 then UCp v :: utf8_decode s1
      else if (194 <=? v) && (v <? 224) then
        match s1 with
        | String c1 s2 =>
            if is_cont c1 then UCp ((v - 192) * 64 + (byte_val c1 - 128)) :: utf8_decode s2
            else UByte b :: utf8_decode s1
        | EmptyString => [UByte b]
        end
      else if (224 <=? v) && (v <? 240) then
        match s1 with
        | String c1 (String c2 s3) =>
            if is_cont c1 && is_cont c2 then
              UCp ((v - 224) * 4096 + (byte_val c1 - 128) * 64 + (byte_val c2 - 128))
                :: utf8_decode s3
            else UByte b :: utf8_decode s1
        | _ => UByte b :: utf8_decode s1
        end
      else if (240 <=? v) && (v <? 245) then
        match s1 with
        | String c1 (String c2 (String c3 s4)) =>
            if is_cont c1 && is_cont c2 && is_cont c3 then
              UCp ((v - 240) * 262144 + (byte_val c1 - 128) * 4096 +
                   (byte_val c2 - 128) * 64 + (byte_val c3 - 128)) :: utf8_decode s4
            else UByte b :: utf8_decode s1
        | _ => UByte b :: utf8_decode s1
        end
      else UByte b :: utf8_decode s1
  end.

Definition utf8_encode_cp (cp : Z) : string :=
  if cp <? 128 then String (byte_of cp) EmptyString
  else if cp <? 2048 then
    String (byte_of (192 + cp / 64)) (String (byte_of (128 + cp mod 64)) EmptyString)
  else if cp <? 65536 then
    String (byte_of (224 + cp / 4096))
      (String (byte_of (128 + (cp / 64) mod 64)) (String (byte_of (128 + cp mod 64)) EmptyString))
  else
    String (byte_of (240 + cp / 262144))
      (String (byte_of (128 + (cp / 4096) mod 64))
        (String (byte_of (128 + (cp / 64) mod 64)) (String (byte_of (128 + cp mod 64)) EmptyString))).

Fixpoint utf8_encode (cs : list UChar) : string :=
  match cs with
  | [] => EmptyString
  | UCp cp :: cs' => utf8_encode_cp cp +:+ utf8_encode cs'
  | UByte b :: cs' => String b (utf8_encode cs')
  end.

(** [str.upper] maps every code point on its own (Unicode's full upper
    case mapping, no context).  The two tables below are that mapping as
    CPython 3.11 ships it (Unicode 14.0.0): the code points whose upper
    case is one code point, as runs [(start, count, stride, delta)]
    (each [start + i * stride] for [i < count] maps to itself plus
    [delta]), and the code points whose upper case is several code points
    (such as U+00DF to 'SS' or U+FB05 to 'ST').  Every other code point is
    its own upper case. *)
Definition upper_runs : list (Z * Z * Z * Z) := [
  (97, 26, 1, -32); (181, 1, 1, 743); (224, 23, 1, -32); (248, 7, 1, -32);
  (255, 1, 1, 121); (257, 24, 2, -1); (305, 1, 1, -232); (307, 3, 2, -1);
  (314, 8, 2, -1); (331, 23, 2, -1); (378, 3, 2, -1); (383, 1, 1, -300);
  (384, 1, 1, 195); (387, 2, 2, -1); (392, 1, 1, -1); (396, 1, 1, -1); (402, 1, 1, -1);
  (405, 1, 1, 97); (409, 1, 1, -1); (410, 1, 1, 163); (414, 1, 1, 130); (417, 3, 2, -1);
  (424, 1, 1, -1); (429, 1, 1, -1); (432, 1, 1, -1); (436, 2, 2, -1); (441, 1, 1, -1);
  (445, 1, 1, -1); (447, 1, 1, 56); (453, 1, 1, -1); (454, 1, 1, -2); (456, 1, 1, -1);
  (457, 1, 1, -2); (459, 1, 1, -1); (460, 1, 1, -2); (462, 8, 2, -1); (477, 1, 1, -79);
  (479, 9, 2, -1); (498, 1, 1, -1); (499, 1, 1, -2); (501, 1, 1, -1); (505, 20, 2, -1);
  (547, 9, 2, -1); (572, 1, 1, -1); (575, 2, 1, 10815); (578, 1, 1, -1); (583, 5, 2, -1);
  (592, 1, 1, 10783); (593, 1, 1, 10780); (594, 1, 1, 10782); (595, 1, 1, -210);
  (596, 1, 1, -206); (598, 2, 1, -205); (601, 1, 1, -202); (603, 1, 1, -203);
  (604, 1, 1, 42319); (608, 1, 1, -205); (609, 1, 1, 42315); (611, 1, 1, -207);
  (613, 1, 1, 42280); (614, 1, 1, 42308); (616, 1, 1, -209); (617, 1, 1, -211);
  (618, 1, 1, 42308); (619, 1, 1, 10743); (620, 1, 1, 42305); (623, 1, 1, -211);
  (625, 1, 1, 10749); (626, 1, 1, -213); (629, 1, 1, -214); (637, 1, 1, 10727);
  (640, 1, 1, -218); (642, 1, 1, 42307); (643, 1, 1, -218); (647, 1, 1, 42282);
  (648, 1, 1, -218); (649, 1, 1, -69); (650, 2, 1, -217); (652, 1, 1, -71);
  (658, 1, 1, -219); (669, 1, 1, 42261); (670, 1, 1, 42258); (837, 1, 1, 84);
  (881, 2, 2, -1); (887, 1, 1, -1); (891, 3, 1, 130); (940, 1, 1, -38); (941, 3, 1, -37);
  (945, 17, 1, -32); (962, 1, 1, -31); (963, 9, 1, -32); (972, 1, 1, -64);
  (973, 2, 1, -63); (976, 1, 1, -62); (977, 1, 1, -57); (981, 1, 1, -47);
  (982, 1, 1, -54); (983, 1, 1, -8); (985, 12, 2, -1); (1008, 1, 1, -86);
  (1009, 1, 1, -80); (1010, 1, 1, 7); (1011, 1, 1, -116); (1013, 1, 1, -96);
  (1016, 1, 1, -1); (1019, 1, 1, -1); (1072, 32, 1, -32); (1104, 16, 1, -80);
  (1121, 17, 2, -1); (1163, 27, 2, -1); (1218, 7, 2, -1); (1231, 1, 1, -15);
  (1233, 48, 2, -1); (1377, 38, 1, -48); (4304, 43, 1, 3008); (4349, 3, 1, 3008);
  (5112, 6, 1, -8); (7296, 1, 1, -6254); (7297, 1, 1, -6253); (7298, 1, 1, -6244);
  (7299, 2, 1, -6242); (7301, 1, 1, -6243); (7302, 1, 1, -6236); (7303, 1, 1, -6181);
  (7304, 1, 1, 35266); (7545, 1, 1, 35332); (7549, 1, 1, 3814); (7566, 1, 1, 35384);
  (7681, 75, 2, -1); (7835, 1, 1, -59); (7841, 48, 2, -1); (7936, 8, 1, 8);
  (7952, 6, 1, 8); (7968, 8, 1, 8); (7984, 8, 1, 8); (8000, 6, 1, 8); (8017, 4, 2, 8);
  (8032, 8, 1, 8); (8048, 2, 1, 74); (8050, 4, 1, 86); (8054, 2, 1, 100);
  (8056, 2, 1, 128); (8058, 2, 1, 112); (8060, 2, 1, 126); (8112, 2, 1, 8);
  (8126, 1, 1, -7205); (8144, 2, 1, 8); (8160, 2, 1, 8); (8165, 1, 1, 7);
  (8526, 1, 1, -28); (8560, 16, 1, -16); (8580, 1, 1, -1); (9424, 26, 1, -26);
  (11312, 48, 1, -48); (11361, 1, 1, -1); (11365, 1, 1, -10795); (11366, 1, 1, -10792);
  (11368, 3, 2, -1); (11379, 1, 1, -1); (11382, 1, 1, -1); (11393, 50, 2, -1);
  (11500, 2, 2, -1); (11507, 1, 1, -1); (11520, 38, 1, -7264); (11559, 1, 1, -7264);
  (11565, 1, 1, -7264); (42561, 23, 2, -1); (42625, 14, 2, -1); (42787, 7, 2, -1);
  (42803, 31, 2, -1); (42874, 2, 2, -1); (42879, 5, 2, -1); (42892, 1, 1, -1);
  (42897, 2, 2, -1); (42900, 1, 1, 48); (42903, 10, 2, -1); (42933, 8, 2, -1);
  (42952, 2, 2, -1); (42961, 1, 1, -1); (42967, 2, 2, -1); (42998, 1, 1, -1);
  (43859, 1, 1, -928); (43888, 80, 1, -38864); (65345, 26, 1, -32); (66600, 40, 1, -40);
  (66776, 36, 1, -40); (66967, 11, 1, -39); (66979, 15, 1, -39); (66995, 7, 1, -39);
  (67003, 2, 1, -39); (68800, 51, 1, -64); (71872, 32, 1, -32); (93792, 32, 1, -32);
  (125218, 34, 1, -34)].

Definition upper_special : list (Z * list Z) := [
  (223, [83; 83]); (329, [700; 78]); (496, [74; 780]); (912, [921; 776; 769]);
  (944, [933; 776; 769]); (1415, [1333; 1362]); (7830, [72; 817]); (7831, [84; 776]);
  (7832, [87; 778]); (7833, [89; 778]); (7834, [65; 702]); (8016, [933; 787]);
  (8018, [933; 787; 768]); (8020, [933; 787; 769]); (8022, [933; 787; 834]);
  (8064, [7944; 921]); (8065, [7945; 921]); (8066, [7946; 921]); (8067, [7947; 921]);
  (8068, [7948; 921]); (8069, [7949; 921]); (8070, [7950; 921]); (8071, [7951; 921]);
  (8072, [7944; 921]); (8073, [7945; 921]); (8074, [7946; 921]); (8075, [7947; 921]);
  (8076, [7948; 921]); (8077, [7949; 921]); (8078, [7950; 921]); (8079, [7951; 921]);
  (8080, [7976; 921]); (8081, [7977; 921]); (8082, [7978; 921]); (8083, [7979; 921]);
  (8084, [7980; 921]); (8085, [7981; 921]); (8086, [7982; 921]); (8087, [7983; 921]);
  (8088, [7976; 921]); (8089, [7977; 921]); (8090, [7978; 921]); (8091, [7979; 921]);
  (8092, [7980; 921]); (8093, [7981; 921]); (8094, [7982; 921]); (8095, [7983; 921]);
  (8096, [8040; 921]); (8097, [8041; 921]); (8098, [8042; 921]); (8099, [8043; 921]);
  (8100, [8044; 921]); (8101, [8045; 921]); (8102, [8046; 921]); (8103, [8047; 921]);
  (8104, [8040; 921]); (8105, [8041; 921]); (8106, [8042; 921]); (8107, [8043; 921]);
  (8108, [8044; 921]); (8109, [8045; 921]); (8110, [8046; 921]); (8111, [8047; 921]);
  (8114, [8122; 921]); (8115, [913; 921]); (8116, [902; 921]); (8118, [913; 834]);
  (8119, [913; 834; 921]); (8124, [913; 921]); (8130, [8138; 921]); (8131, [919; 921]);
  (8132, [905; 921]); (8134, [919; 834]); (8135, [919; 834; 921]); (8140, [919; 921]);
  (8146, [921; 776; 768]); (8147, [921; 776; 769]); (8150, [921; 834]);
  (8151, [921; 776; 834]); (8162, [933; 776; 768]); (8163, [933; 776; 769]);
  (8164, [929; 787]); (8166, [933; 834]); (8167, [933; 776; 834]); (8178, [8186; 921]);
  (8179, [937; 921]); (8180, [911; 921]); (8182, [937; 834]); (8183, [937; 834; 921]);
  (8188, [937; 921]); (64256, [70; 70]); (64257, [70; 73]); (64258, [70; 76]);
  (64259, [70; 70; 73]); (64260, [70; 70; 76]); (64261, [83; 84]); (64262, [83; 84]);
  (64275, [1348; 1350]); (64276, [1348; 1333]); (64277, [1348; 1339]);
  (64278, [1358; 1350]); (64279, [1348; 1341])].

Definition in_run (cp : Z) (r : Z * Z * Z * Z) : bool :=
  let '(start, count, stride, _) := r in
  (start <=? cp) && (cp <=? start + (count - 1) * stride) && ((cp - start) mod stride =? 0).

(** [chr(cp).upper()] *)
Definition upper_cp (cp : Z) : list Z :=
  match List.find (fun p => p.1 =? cp) upper_special with
  | Some (_, us) => us
  | None =>
      match List.find (in_run cp) upper_runs with
      | Some (_, _, _, delta) => [cp + delta]
      | None => [cp]
      end
  end.

(** [s.upper()] *)
Definition py_upper (s : string) : string :=
  utf8_encode (List.flat_map (fun u => match u with
                                      | UCp cp => map UCp (upper_cp cp)
                                      | UByte b => [UByte b]
                                      end) (utf8_decode s)).

(** [s.startswith(p)] *)
Definition py_startswith (p s : string) : bool := String.prefix p s.

(** [k in s] for strings: literal substring containment. *)
Fixpoint py_contains (k s : string) : bool :=
  String.prefix k s ||
  match s with
  | EmptyString => false
  | String _ s' => py_contains k s'
  end.

(** [s.rsplit(c, 1)] when [c in s]: the text before and after the last [c]. *)
Fixpoint rsplit1 (c : Ascii.ascii) (s : string) : option (string * string) :=
  match s with
  | EmptyString => None
  | String x s' =>
      match rsplit1 c s' with
      | Some (a, b) => Some (String x a, b)
      | None => if Ascii.eqb x c then Some (EmptyString, s') else None
      end
  end.

(** [s.split(c, 1)] when [c in s]: the text before and after the first [c]. *)
Fixpoint split1 (c : Ascii.ascii) (s : string) : option (string * string) :=
  match s with
  | EmptyString => None
  | String x s' =>
      if Ascii.eqb x c then Some (EmptyString, s')
      else match split1 c s' with
           | Some (a, b) => Some (String x a, b)
           | None => None
           end
  end.

(** [s.split(c)[0]] *)
Definition split_head (c : Ascii.ascii) (s : string) : string :=
  match split1 c s with Some (a, _) => a | None => s end.

Definition colon : Ascii.ascii := Ascii.ascii_of_nat 58.
Definition at_sign : Ascii.ascii := Ascii.ascii_of_nat 64.
Definition slash : Ascii.ascii := Ascii.ascii_of_nat 47.

(** The dict returned by every probe. *)
Record CheckResult := mkResult {
  status : Z;
  response_time : Z;
  status_code : Z;   (* HTTP code for http/keyword, days left for ssl *)
  message : string
}.

(** The Python type of a JSON value [json.loads] returns that is not an
    object. *)
Inductive JsonKind :=
| JKList | JKInt | JKFloat | JKStr | JKBool | JKNull.

Definition json_type_name (k : JsonKind) : string :=
  match k with
  | JKList => "list"
  | JKInt => "int"
  | JKFloat => "float"
  | JKStr => "str"
  | JKBool => "bool"
  | JKNull => "NoneType"
  end.

(** The headers column after [json.loads]: a dict, unparsable text (the
    bare [except] turns it into [{}]), or valid JSON that is not a dict,
    of Python type [k] (then [headers.setdefault] raises AttributeError). *)
Inductive Headers :=
| HDict (kv : list (string * string))
| HUnparsable
| HNonDict (k : JsonKind).

(** A row of the [monitors] table as the probes see it; [m_type] is the
    key the scheduler adds with [{**monitor, 'type': check_type}].
    [m_types] is the parsed [types] column, [None] when it is not JSON.
    An empty [m_keyword] stands for both NULL and ''. *)
Record Monitor := mkMonitor {
  m_id : Z;
  m_name : string;
  m_type : string;
  m_types : option (list string);
  m_target : string;
  m_method : string;
  m_headers : Headers;
  m_body : string;
  m_timeout : Z;
  m_expected_status : Z;
  m_keyword : string;
  m_port : Z;
  m_interval : Z;
  m_enabled : bool
}.

Record HttpRequest := mkReq {
  req_method : string;
  req_url : string;
  req_headers : list (string * string);
  req_body : string;
  req_timeout : Z
}.

Record HttpResponse := mkResp { resp_code : Z; resp_text : string }.

(** A row of the [heartbeats] table; [hb_created_at] is the parsed
    [created_at] column in seconds. *)
Record Heartbeat := mkHeartbeat {
  hb_status : Z;
  hb_message : string;
  hb_created_at : Z;
  hb_created_at_text : string
}.

(** The I/O a probe performs, in order. *)
Inductive Action :=
| ActHttp (r : HttpRequest)
| ActTcp (host : string) (port : Z)
| ActTls (host : string) (port : Z)
| ActReadHeartbeat (monitor_id : Z)
| ActMysql (host : string) (port : Z)
| ActRedis (host : string) (port : Z).

(** The outside world at the time of a probe: what each network call
    returns or raises, the clock, and the library functions the probes
    call ([urlparse(..).hostname], [int(..)]). *)
Record Env := mkEnv {
  w_http : HttpRequest -> Exc HttpResponse;     (* requests.get/post/head *)
  w_tcp : string -> Z -> Exc Z;                 (* sock.connect_ex: errno *)
  w_tls_not_after : string -> Exc Z;            (* peer cert notAfter, seconds *)
  w_last_heartbeat : Z -> option Heartbeat;     (* get_last_heartbeat *)
  w_has_pymysql : bool;
  w_mysql : string -> Z -> string -> string -> string -> Exc unit;
  w_has_redis : bool;
  w_redis : string -> Z -> Exc unit;
  w_now : Z;                                    (* datetime.now(), seconds *)
  w_rtt_ms : Z;                                 (* measured round trip *)
  w_urlparse_hostname : string -> option string;
  w_int : string -> Exc Z                       (* int(s) *)
}.

(* ------------------------------------------------------------------ *)
(** ** The probe monad: I/O trace and Python exceptions *)

Definition M (A : Type) : Type := (list Action * Exc A)%type.

Global Instance M_ret : MRet M := fun A a => ([], Ok a).
Global Instance M_bind : MBind M := fun A B f m =>
  match m with
  | (t, Ok a) => let '(t', r) := f a in ((t ++ t')%list, r)
  | (t, Raise e) => (t, Raise e)
  end.

Definition raise {A} (e : PyExn) : M A := ([], Raise e).

(** Perform one I/O action whose outcome the environment decides. *)
Definition perform {A} (a : Action) (r : Exc A) : M A := ([a], r).

(** [try: m except e: h(e)] *)
Definition try_except {A} (m : M A) (h : PyExn -> M A) : M A :=
  match m with
  | (t, Raise e) => let '(t', r) := h e in ((t ++ t')%list, r)
  | _ => m
  end.

Definition failed (rt : Z) (msg : string) : CheckResult :=
  mkResult 0 rt 0 msg.

(* ------------------------------------------------------------------ *)
(** ** MonitorChecker (src/monitor.py) *)

Section Checker.
Variable env : Env.

(** [headers.setdefault(k, v)] on an association list. *)
Definition setdefault (k v : string) (kv : list (string * string)) :=
  match list_find (fun p => p.1 = k) kv with
  | Some _ => kv
  | None => (kv ++ [(k, v)])%list
  end.

Definition http_request (m : Monitor) (headers : list (string * string)) : HttpRequest :=
  let meth := py_upper (m_method m) in
  if String.eqb meth "POST" then mkReq "POST" (m_target m) headers (m_body m) (m_timeout m)
  else if String.eqb meth "HEAD" then mkReq "HEAD" (m_target m) headers "" (m_timeout m)
  else mkReq "GET" (m_target m) headers "" (m_timeout m).

(** Line 75: the status decision of [check_http]. *)
Definition http_status (code expected : Z) : Z :=
  if (code =? expected) || (code <? 400) then 1 else 0.

Definition check_http (m : Monitor) : M CheckResult :=
  headers ← match m_headers m with
            | HDict kv => mret kv
            | HUnparsable => mret []
            | HNonDict k =>
                raise (mkExn AttributeError
                         ("'" +:+ json_type_name k +:+ "' object has no attribute 'setdefault'"))
            end;
  let req := http_request m (setdefault "User-Agent" "SiteMonitor/1.0" headers) in
  try_except
    (response ← perform (ActHttp req) (w_http env req);
     let st := http_status (resp_code response) (m_expected_status m) in
     mret (mkResult st (w_rtt_ms env) (resp_code response)
             (if st =? 1 then "OK" else "状态码 " +:+ pretty (resp_code response))))
    (fun e => match exn_kind e with
              | ReqTimeout => mret (failed (m_timeout m * 1000) "请求超时")
              | ReqSSLError => mret (failed 0 ("SSL证书错误: " +:+ py_prefix 100 (exn_str e)))
              | ReqConnectionError => mret (failed 0 "连接失败")
              | _ => mret (failed 0 (py_prefix 200 (exn_str e)))
              end).

(** The second fetch of [check_keyword]: [requests.get(url, timeout=...)]. *)
Definition keyword_request (m : Monitor) : HttpRequest :=
  mkReq "GET" (m_target m) [] "" (m_timeout m).

Definition check_keyword (m : Monitor) : M CheckResult :=
  result ← check_http m;
  if (status result =? 1) && negb (String.eqb (m_keyword m) "") then
    let keyword := m_keyword m in
    try_except
      (response ← perform (ActHttp (keyword_request m)) (w_http env (keyword_request m));
       if py_contains keyword (resp_text response)
       then mret {| status := status result; response_time := response_time result;
                    status_code := status_code result;
                    message := "包含关键词: " +:+ keyword |}
       else mret {| status := 0; response_time := response_time result;
                    status_code := status_code result;
                    message := "未找到关键词: " +:+ keyword |})
      (fun _ => mret result)
  else mret result.

(** [check_port]: [int(parts[1])] runs before the [try]. *)
Definition check_port (m : Monitor) : M CheckResult :=
  let target := m_target m in
  let timeout := m_timeout m in
  hp ← (match rsplit1 colon target with
        | Some (host, p) =>
            if py_startswith "[" target then mret (target, m_port m)
            else match w_int env p with
                 | Ok port => mret (host, port)
                 | Raise e => raise e
                 end
        | None => mret (target, m_port m)
        end);
  let '(host, port) := hp in
  try_except
    (r ← perform (ActTcp host port) (w_tcp env host port);
     if r =? 0
     then mret (mkResult 1 (w_rtt_ms env) 0 ("端口 " +:+ pretty port +:+ " 开放"))
     else mret (mkResult 0 0 0 ("端口 " +:+ pretty port +:+ " 未开放")))
    (fun e => match exn_kind e with
              | SockTimeout => mret (failed (timeout * 1000) "连接超时")
              | _ => mret (failed 0 (exn_str e))
              end).

Definition check_ping (m : Monitor) : M CheckResult :=
  check_port {| m_id := m_id m; m_name := m_name m; m_type := m_type m;
                m_types := m_types m; m_target := m_target m; m_method := m_method m;
                m_headers := m_headers m; m_body := m_body m; m_timeout := m_timeout m;
                m_expected_status := m_expected_status m; m_keyword := m_keyword m;
                m_port := 80; m_interval := m_interval m; m_enabled := m_enabled m |}.

(** Lines 218-245: the verdict on the days left before the certificate's
    notAfter date. *)
Definition ssl_verdict (rt days_left : Z) : CheckResult :=
  if days_left <=? 0 then mkResult 0 rt days_left "证书已过期"
  else if days_left <=? 7 then
    mkResult 0 rt days_left ("证书将在 " +:+ pretty days_left +:+ " 天后过期")
  else if days_left <=? 30 then
    mkResult 1 rt days_left ("证书剩余 " +:+ pretty days_left +:+ " 天（即将过期）")
  else mkResult 1 rt days_left ("证书有效，剩余 " +:+ pretty days_left +:+ " 天").

(** [(expire_date - datetime.now()).days]: floor division by a day. *)
Definition days_until (expire now : Z) : Z := (expire - now) / 86400.

Definition check_ssl_cert (m : Monitor) : M CheckResult :=
  let target := m_target m in
  let hostname := if py_startswith "http" target
                  then w_urlparse_hostname env target
                  else Some (split_head colon target) in
  try_except
    (match hostname with
     | None => raise (mkExn OtherError "getaddrinfo() argument 1 must be string or None")
     | Some host =>
         expire ← perform (ActTls host 443) (w_tls_not_after env host);
         mret (ssl_verdict (w_rtt_ms env) (days_until expire (w_now env)))
     end)
    (fun e => match exn_kind e with
              | SslError => mret (failed 0 ("SSL错误: " +:+ py_prefix 100 (exn_str e)))
              | _ => mret (failed 0 (py_prefix 200 (exn_str e)))
              end).

(** [check_push]: [beat_time < datetime.now() - timedelta(seconds=interval*2)]. *)
Definition check_push (m : Monitor) : M CheckResult :=
  last_beat ← perform (ActReadHeartbeat (m_id m)) (Ok (w_last_heartbeat env (m_id m)));
  match last_beat with
  | None => mret (failed 0 "从未收到心跳")
  | Some hb =>
      if hb_created_at hb <? w_now env - m_interval m * 2
      then mret (failed 0 ("心跳超时，上次: " +:+ hb_created_at_text hb))
      else mret (mkResult (hb_status hb) 0 0 (hb_message hb))
  end.

(** [host[:port]] with a default port, as in [check_mysql]/[check_redis]. *)
Definition host_port (default : Z) (s : string) : Exc (string * Z) :=
  match rsplit1 colon s with
  | Some (host, p) => match w_int env p with Ok port => Ok (host, port) | Raise e => Raise e end
  | None => Ok (s, default)
  end.

(** The connection string [host:port] or [user:pass@host:port/db]. *)
Definition mysql_params (target : string) : Exc (string * string * string * string * Z) :=
  match split1 at_sign target with
  | Some (auth, rest) =>
      match split1 colon auth with
      | None => Raise (mkExn ValueError "not enough values to unpack (expected 2, got 1)")
      | Some (user, password) =>
          let '(hp, db) := match rsplit1 slash rest with
                           | Some (hp, db) => (hp, db)
                           | None => (rest, "")
                           end in
          match host_port 3306 hp with
          | Ok (host, port) => Ok (user, password, db, host, port)
          | Raise e => Raise e
          end
      end
  | None =>
      match host_port 3306 target with
      | Ok (host, port) => Ok ("root", "", "", host, port)
      | Raise e => Raise e
      end
  end.

Definition check_mysql (m : Monitor) : M CheckResult :=
  if negb (w_has_pymysql env) then mret (failed 0 "缺少 pymysql 模块")
  else
    try_except
      (prm ← ([], mysql_params (m_target m));
       let '(user, password, db, host, port) := prm in
       _ ← perform (ActMysql host port) (w_mysql env host port user password db);
       mret (mkResult 1 (w_rtt_ms env) 0 "MySQL 连接正常"))
      (fun e => mret (failed 0 ("MySQL 连接失败: " +:+ py_prefix 100 (exn_str e)))).

Definition check_redis (m : Monitor) : M CheckResult :=
  if negb (w_has_redis env) then mret (failed 0 "缺少 redis 模块")
  else
    try_except
      (let target := if py_startswith "redis://" (m_target m)
                     then String.substring 8 (String.length (m_target m)) (m_target m)
                     else m_target m in
       hp ← ([], host_port 6379 target);
       let '(host, port) := hp in
       _ ← perform (ActRedis host port) (w_redis env host port);
       mret (mkResult 1 (w_rtt_ms env) 0 "Redis 连接正常"))
      (fun e => mret (failed 0 ("Redis 连接失败: " +:+ py_prefix 100 (exn_str e)))).

(** The table [checkers] of [MonitorChecker.check]. *)
Inductive Checker :=
| CkHttp | CkKeyword | CkPort | CkPing | CkSsl | CkPush | CkMysql | CkRedis.

Definition checkers (t : string) : option Checker :=
  if String.eqb t "http" then Some CkHttp
  else if String.eqb t "https" then Some CkHttp
  else if String.eqb t "keyword" then Some CkKeyword
  else if String.eqb t "port" then Some CkPort
  else if String.eqb t "tcp" then Some CkPort
  else if String.eqb t "ping" then Some CkPing
  else if String.eqb t "ssl" then Some CkSsl
  else if String.eqb t "push" then Some CkPush
  else if String.eqb t "mysql" then Some CkMysql
  else if String.eqb t "redis" then Some CkRedis
  else None.

Definition run_checker (c : Checker) : Monitor -> M CheckResult :=
  match c with
  | CkHttp => check_http
  | CkKeyword => check_keyword
  | CkPort => check_port
  | CkPing => check_ping
  | CkSsl => check_ssl_cert
  | CkPush => check_push
  | CkMysql => check_mysql
  | CkRedis => check_redis
  end.

(** The keys of the table [checkers]. *)
Definition registered_types : list string :=
  ["http"; "https"; "keyword"; "port"; "tcp"; "ping"; "ssl"; "push"; "mysql"; "redis"].

(** [checkers.get(monitor_type, self.check_http)] *)
Definition select_checker (t : string) : Checker :=
  match checkers t with Some c => c | None => CkHttp end.

Definition check (m : Monitor) : M CheckResult :=
  try_except (run_checker (select_checker (m_type m)) m)
    (fun e => mret (mkResult 0 0 0 (exn_str e))).

End Checker.

(* ------------------------------------------------------------------ *)
(** ** The scheduler side of src/app.py *)

(** [{**monitor, 'type': check_type}] *)
Definition with_type (m : Monitor) (t : string) : Monitor :=
  {| m_id := m_id m; m_name := m_name m; m_type := t;
     m_types := m_types m; m_target := m_target m; m_method := m_method m;
     m_headers := m_headers m; m_body := m_body m; m_timeout := m_timeout m;
     m_expected_status := m_expected_status m; m_keyword := m_keyword m;
     m_port := m_port m; m_interval := m_interval m; m_enabled := m_enabled m |}.

(** [types = json.loads(types_str)], falling back to ['http']. *)
Definition parse_types (m : Monitor) : list string :=
  match m_types m with Some ts => ts | None => ["http"] end.

Definition TYPE_NAMES (t : string) : string :=
  if String.eqb t "http" then "HTTP"
  else if String.eqb t "keyword" then "关键词"
  else if String.eqb t "ssl" then "SSL证书"
  else if String.eqb t "port" then "端口"
  else if String.eqb t "push" then "推送"
  else if String.eqb t "mysql" then "MySQL"
  else if String.eqb t "redis" then "Redis"
  else t.

Record LogRow := mkLog {
  log_monitor : Z; log_type : string; log_status : Z;
  log_response_time : Z; log_status_code : Z; log_message : string
}.

Record EventRow := mkEvent { ev_monitor : option Z; ev_kind : string; ev_message : string }.

(** The writes of the app, in order: [add_log], [add_event] and
    [send_notification(monitor, status, message)]. *)
Inductive Effect :=
| EffLog (l : LogRow)
| EffEvent (e : EventRow)
| EffNotify (monitor_id : Z) (st : Z) (msg : string).

(** The module-level dict [last_status = {monitor_id: {check_type: status}}]. *)
Abbreviation LastStatus := (gmap Z (gmap string Z)).

(** One observation of a tick: the monitor, the check type and its result. *)
Definition Obs := (Monitor * string * CheckResult)%type.

Definition obs_key (o : Obs) : Z * string := (m_id o.1.1, o.1.2).
Definition obs_status (o : Obs) : Z := status o.2.

Definition log_effect (o : Obs) : Effect :=
  let '(m, t, r) := o in
  EffLog (mkLog (m_id m) t (status r) (response_time r) (status_code r) (message r)).

(** Lines 95-104: the event and the notification of a transition. *)
Definition transition_effects (o : Obs) : list Effect :=
  let '(m, t, r) := o in
  let type_name := TYPE_NAMES t in
  let ev := if status r =? 0
            then mkEvent (Some (m_id m)) "down"
                   (m_name m +:+ " [" +:+ type_name +:+ "] 异常: " +:+ message r)
            else mkEvent (Some (m_id m)) "up"
                   (m_name m +:+ " [" +:+ type_name +:+ "] 恢复正常") in
  [EffEvent ev; EffNotify (m_id m) (status r) ("[" +:+ type_name +:+ "] " +:+ message r)].

(** [last_status[monitor_id].get(check_type)] *)
Definition lookup2 (ls : LastStatus) (k : Z * string) : option Z :=
  ls !! k.1 ≫= (fun inner => inner !! k.2).

Section Tick.
(** [checker.check(check_monitor_obj)] for the entry at position [i] of
    the monitor's [types] list. *)
Variable probe : nat -> Monitor -> CheckResult.

(** The body of the [for check_type in types] loop of [check_monitor]. *)
Fixpoint check_types (m : Monitor) (ls : LastStatus) (i : nat) (types : list string)
  : LastStatus * list Effect :=
  match types with
  | [] => (ls, [])
  | t :: ts =>
      if String.eqb t "push" then check_types m ls (S i) ts
      else
        let r := probe i (with_type m t) in
        let o : Obs := (m, t, r) in
        let inner := default ∅ (ls !! m_id m) in
        let trans := match inner !! t with
                     | Some prev => if bool_decide (prev ≠ status r) then transition_effects o else []
                     | None => []
                     end in
        let ls' := <[m_id m := <[t := status r]> inner]> ls in
        let '(ls'', effs) := check_types m ls' (S i) ts in
        (ls'', log_effect o :: trans ++ effs)
  end.

Definition check_monitor (m : Monitor) (ls : LastStatus) : LastStatus * list Effect :=
  if negb (m_enabled m) then (ls, [])
  else
    let ls0 := match ls !! m_id m with Some _ => ls | None => <[m_id m := ∅]> ls end in
    check_types m ls0 0 (parse_types m).

(** The observations a tick makes, in order. *)
Fixpoint types_obs (m : Monitor) (i : nat) (types : list string) : list Obs :=
  match types with
  | [] => []
  | t :: ts =>
      if String.eqb t "push" then types_obs m (S i) ts
      else (m, t, probe i (with_type m t)) :: types_obs m (S i) ts
  end.

Definition tick_obs (m : Monitor) : list Obs :=
  if m_enabled m then types_obs m 0 (parse_types m) else [].

End Tick.

(** A run of scheduled ticks: each tick is a monitor and the probe
    results of that tick. *)
Fixpoint run_ticks (ls : LastStatus) (ticks : list (Monitor * (nat -> Monitor -> CheckResult)))
  : LastStatus * list Effect :=
  match ticks with
  | [] => (ls, [])
  | (m, probe) :: rest =>
      let '(ls', e1) := check_monitor probe m ls in
      let '(ls'', e2) := run_ticks ls' rest in
      (ls'', e1 ++ e2)
  end.

Definition ticks_obs (ticks : list (Monitor * (nat -> Monitor -> CheckResult))) : list Obs :=
  concat (map (fun '(m, probe) => tick_obs probe m) ticks).

(** The status recorded by the most recent earlier observation of key [k]
    ([hist] is most recent first), or the initial map's entry. *)
Fixpoint last_recorded (ls0 : LastStatus) (hist : list Obs) (k : Z * string) : option Z :=
  match hist with
  | [] => lookup2 ls0 k
  | o :: older => if bool_decide (obs_key o = k) then Some (obs_status o)
                  else last_recorded ls0 older k
  end.

(** The transition rule stated over a whole sequence of observations:
    every observation is logged, and it fires a transition exactly when an
    earlier status was recorded for its key and differs from it. *)
Fixpoint expected_effects (ls0 : LastStatus) (hist : list Obs) (obs : list Obs) : list Effect :=
  match obs with
  | [] => []
  | o :: rest =>
      log_effect o ::
      (match last_recorded ls0 hist (obs_key o) with
       | Some prev => if bool_decide (prev ≠ obs_status o) then transition_effects o else []
       | None => []
       end) ++ expected_effects ls0 (o :: hist) rest
  end.

(** The process state of src/app.py and the tables it writes. *)
Record AppState := mkApp {
  last_status : LastStatus;
  jobs : gmap string Monitor;          (* BackgroundScheduler jobs: id -> args=[monitor] *)
  monitors : gmap Z Monitor;           (* the monitors table *)
  heartbeats : list (Z * Heartbeat);   (* the heartbeats table, oldest first *)
  out : list Effect                    (* logs, events and notifications, oldest first *)
}.

Definition job_id (id : Z) : string := "monitor_" +:+ pretty id.

Definition has_active_types (m : Monitor) : bool :=
  existsb (fun t => negb (String.eqb t "push")) (parse_types m).

(** [schedule_monitor]: remove the old job, add one when the monitor is
    enabled and has a non-push type. *)
Definition schedule_monitor (m : Monitor) (st : AppState) : AppState :=
  let jobs' := delete (job_id (m_id m)) (jobs st) in
  {| last_status := last_status st;
     jobs := if m_enabled m && has_active_types m then <[job_id (m_id m) := m]> jobs' else jobs';
     monitors := monitors st; heartbeats := heartbeats st; out := out st |}.

(** A scheduled tick of job [j]: [check_monitor(monitor)] with the
    monitor the job was added with; nothing when no such job exists. *)
Definition fire_job (j : string) (probe : nat -> Monitor -> CheckResult) (st : AppState) : AppState :=
  match jobs st !! j with
  | Some m =>
      let '(ls', effs) := check_monitor probe m (last_status st) in
      {| last_status := ls'; jobs := jobs st; monitors := monitors st;
         heartbeats := heartbeats st; out := out st ++ effs |}
  | None => st
  end.

(** Every job is stored under the id [schedule_monitor] gives its monitor. *)
Definition jobs_keyed (st : AppState) : Prop :=
  forall j m, jobs st !! j = Some m -> j = job_id (m_id m).

(** [api_delete_monitor]: the HTTP status code and the new state. *)
Definition api_delete_monitor (authorized : bool) (monitor_id : Z) (st : AppState) : AppState * Z :=
  if negb authorized then (st, 401)
  else match monitors st !! monitor_id with
       | None => (st, 404)
       | Some m =>
           ({| last_status := last_status st;
               jobs := delete (job_id monitor_id) (jobs st);
               monitors := delete monitor_id (monitors st);
               heartbeats := heartbeats st;
               out := out st ++ [EffEvent (mkEvent None "delete" ("删除监控项目: " +:+ m_name m))] |},
            200)
       end.

(** [api_check_now]: every non-push type is probed and logged; the reply
    carries [overall_status] and [results]. *)
Definition api_check_now (monitor_id : Z) (probe : nat -> Monitor -> CheckResult) (st : AppState)
  : AppState * option (Z * gmap string CheckResult) :=
  match monitors st !! monitor_id with
  | None => (st, None)
  | Some m =>
      let obs := types_obs probe m 0 (parse_types m) in
      let results := foldl (fun acc (o : Obs) => <[o.1.2 := o.2]> acc) ∅ obs in
      let overall := if existsb (fun (o : Obs) => status o.2 =? 0) obs then 0 else 1 in
      ({| last_status := last_status st; jobs := jobs st; monitors := monitors st;
          heartbeats := heartbeats st; out := out st ++ map log_effect obs |},
       Some (overall, results))
  end.

(** The keys of a JSON object body the push reads. *)
Record PushJson := mkPushJson {
  pj_status : option Z; pj_msg : option string; pj_message : option string
}.

(** The body of a request as [request.json] sees it (Flask 2.3 and later). *)
Inductive PushBody :=
| PBNotJson                  (* Content-Type not JSON: 415 Unsupported Media Type *)
| PBBadJson                  (* JSON Content-Type, unparsable body: 400 Bad Request *)
| PBFalsy                    (* {}, [], 0, "", false or null *)
| PBObject (j : PushJson)    (* a non-empty object *)
| PBOtherTruthy (k : JsonKind).  (* a true value that is not an object *)

Record PushRequest := mkPush {
  pr_method : string;
  pr_body : PushBody;
  pr_arg_status : option string;
  pr_arg_msg : option string
}.

(** Lines 527-535 of [api_push_heartbeat]: the status and message stored.
    [request.json] is read only for a POST. *)
Definition push_payload (py_int : string -> Exc Z) (req : PushRequest) : Exc (Z * string) :=
  let from_args :=
    match pr_arg_status req with
    | Some s =>
        if String.eqb s "" then Ok (1, "OK")
        else match py_int s with
             | Ok z => Ok (z, default "OK" (pr_arg_msg req))
             | Raise e => Raise e
             end
    | None => Ok (1, "OK")
    end in
  if String.eqb (pr_method req) "POST" then
    match pr_body req with
    | PBNotJson => Raise (mkExn OtherError "415 Unsupported Media Type")
    | PBBadJson => Raise (mkExn OtherError "400 Bad Request")
    | PBFalsy => from_args
    | PBObject j => Ok (default 1 (pj_status j), default (default "OK" (pj_message j)) (pj_msg j))
    | PBOtherTruthy k =>
        Raise (mkExn AttributeError ("'" +:+ json_type_name k +:+ "' object has no attribute 'get'"))
    end
  else from_args.

(** [api_push_heartbeat]: find the push monitor the token names and
    [add_heartbeat] (a heartbeats row and a 'push' log row). *)
Definition api_push_heartbeat (py_int : string -> Exc Z) (token : string) (req : PushRequest)
    (now : Z) (now_text : string) (st : AppState) : Exc (AppState * Z) :=
  let is_target (m : Monitor) : bool :=
    bool_decide ("push" ∈ parse_types m) &&
    (String.eqb (pretty (m_id m)) token || String.eqb (m_target m) token) in
  match list_find (fun m => is_target m = true) (map snd (map_to_list (monitors st))) with
  | None => Ok (st, 404)
  | Some (_, m) =>
      match push_payload py_int req with
      | Raise e => Raise e
      | Ok (s, msg) =>
          Ok ({| last_status := last_status st; jobs := jobs st; monitors := monitors st;
                 heartbeats := heartbeats st ++ [(m_id m, mkHeartbeat s msg now now_text)];
                 out := out st ++ [EffLog (mkLog (m_id m) "push" s 0 0 msg)] |}, 200)
      end
  end.

(** [ORDER BY created_at DESC LIMIT 1] over rows in insertion order:
    a row with the greatest [created_at].  [created_at] has a resolution
    of one second, and among rows of the same second SQLite (3.40, with
    the [monitor_id] index) returns the one inserted first: a later row
    replaces the one kept only when it is strictly newer. *)
Definition newest_row (rows : list Heartbeat) : option Heartbeat :=
  foldl (fun acc h => match acc with
                      | None => Some h
                      | Some b => if hb_created_at b <? hb_created_at h then Some h else Some b
                      end) None rows.

(** [get_last_heartbeat]: the newest row of the monitor. *)
Definition last_heartbeat (st : AppState) (monitor_id : Z) : option Heartbeat :=
  newest_row (snd <$> filter (fun p => p.1 = monitor_id) (heartbeats st)).

(** The [logs] rows among the writes of the app. *)
Definition logs_of (effs : list Effect) : list LogRow :=
  omap (fun e => match e with EffLog l => Some l | _ => None end) effs.

(** The monitor a write is about ([None] for events of no monitor). *)
Definition effect_monitor (e : Effect) : option Z :=
  match e with
  | EffLog l => Some (log_monitor l)
  | EffEvent ev => ev_monitor ev
  | EffNotify id _ _ => Some id
  end.

(* ------------------------------------------------------------------ *)
(** ** Authentication (src/app.py, the admin table of src/database.py) *)

(** [len(s)] of the decoded text: the bytes of [s] that do not continue a
    UTF-8 sequence. *)
Fixpoint py_len (s : string) : nat :=
  match s with
  | EmptyString => 0
  | String c s' =>
      let n := Ascii.nat_of_ascii c in
      if (128 <=? n)%nat && (n <? 192)%nat then py_len s' else S (py_len s')
  end.

(** [s.replace(old, new)] for a non-empty [old]: left to right, without
    overlaps; [skip] counts the characters of a replaced occurrence still
    to be dropped. *)
Fixpoint replace_go (old new : string) (skip : nat) (s : string) : string :=
  match s with
  | EmptyString => EmptyString
  | String c s' =>
      match skip with
      | S k => replace_go old new k s'
      | O => if String.prefix old s
             then new +:+ replace_go old new (String.length old - 1) s'
             else String c (replace_go old new 0 s')
      end
  end.

Definition py_replace (old new s : string) : string := replace_go old new 0 s.

(** The row of the [admin] table ([id = 1]). *)
Record Admin := mkAdmin { adm_username : string; adm_password : string }.

(** The admin row and the module-level set [admin_tokens]. *)
Record AuthState := mkAuth { auth_admin : option Admin; admin_tokens : gset string }.

(** The JSON body of the auth routes; [None] for a missing key. *)
Record AuthBody := mkAuthBody {
  ab_username : option string; ab_password : option string;
  ab_old_password : option string; ab_new_password : option string
}.

(** [request.headers.get('Authorization', '').replace('Bearer ', '')] *)
Definition request_token (authorization : option string) : string :=
  py_replace "Bearer " "" (default "" authorization).

Definition check_auth (authorization : option string) (st : AuthState) : bool :=
  bool_decide (request_token authorization ∈ admin_tokens st).

(** [create_admin]: update or insert the row with [id = 1]. *)
Definition create_admin (username password_hash : string) (st : AuthState) : AuthState :=
  mkAuth (Some (mkAdmin username password_hash)) (admin_tokens st).

Definition verify_admin (username password_hash : string) (st : AuthState) : bool :=
  match auth_admin st with
  | Some a => String.eqb (adm_username a) username && String.eqb (adm_password a) password_hash
  | None => false
  end.

Section Auth.
(** [hash_password]: the hex SHA-256 digest. *)
Variable hash_password : string -> string.

Definition api_auth_setup (body : AuthBody) (st : AuthState) : AuthState * Z :=
  match auth_admin st with
  | Some _ => (st, 400)
  | None =>
      let username := default "admin" (ab_username body) in
      let password := default "" (ab_password body) in
      if (py_len password <? 6)%nat then (st, 400)
      else (create_admin username (hash_password password) st, 200)
  end.

(** [api_auth_login] with [token] the value [secrets.token_hex(32)] would
    return: the new state, the status code and the token replied. *)
Definition api_auth_login (token : string) (body : AuthBody) (st : AuthState)
  : AuthState * Z * option string :=
  let username := default "" (ab_username body) in
  let password := default "" (ab_password body) in
  match auth_admin st with
  | None => (st, 401, None)
  | Some _ =>
      if verify_admin username (hash_password password) st
      then (mkAuth (auth_admin st) ({[token]} ∪ admin_tokens st), 200, Some token)
      else (st, 401, None)
  end.

Definition api_auth_logout (authorization : option string) (st : AuthState) : AuthState * Z :=
  (mkAuth (auth_admin st) (admin_tokens st ∖ {[request_token authorization]}), 200).

(** [api_auth_password]; [admin['username']] raises when the row is gone. *)
Definition api_auth_password (authorization : option string) (body : AuthBody) (st : AuthState)
  : Exc (AuthState * Z) :=
  if negb (check_auth authorization st) then Ok (st, 401)
  else
    let old_password := default "" (ab_old_password body) in
    let new_password := default "" (ab_new_password body) in
    match auth_admin st with
    | None => Raise (mkExn OtherError "'NoneType' object is not subscriptable")
    | Some a =>
        if negb (verify_admin (adm_username a) (hash_password old_password) st) then Ok (st, 400)
        else if (py_len new_password <? 6)%nat then Ok (st, 400)
        else Ok (create_admin (adm_username a) (hash_password new_password) st, 200)
    end.

End Auth.

(* ------------------------------------------------------------------ *)
(** ** Notifications (src/notify.py) *)

(** The JSON values of a channel's [config] object. *)
Inductive JVal :=
| JStr (s : string)
| JNum (z : Z)
| JBool (b : bool)
| JNull.

(** [f"{v}"] *)
Definition py_str (v : JVal) : string :=
  match v with
  | JStr s => s
  | JNum z => pretty z
  | JBool b => if b then "True" else "False"
  | JNull => "None"
  end.

Definition py_truthy (v : JVal) : bool :=
  match v with
  | JStr s => negb (String.eqb s "")
  | JNum z => negb (z =? 0)
  | JBool b => b
  | JNull => false
  end.

(** A config object as a list of keys and values, keys distinct. *)
Definition Config := list (string * JVal).

Definition cfg_get (k : string) (c : Config) : option JVal :=
  (fun ip => ip.2.2) <$> list_find (fun p => p.1 = k) c.

(** [config[k]] *)
Definition cfg_key (k : string) (c : Config) : Exc JVal :=
  match cfg_get k c with
  | Some v => Ok v
  | None => Raise (mkExn KeyError ("'" +:+ k +:+ "'"))
  end.

(** The monitor dict passed to [send_notification]: a row of the monitors
    table ([nm_type] is [None]: the table has no [type] column) or the
    dict of [api_test_channel]. *)
Record NotifyMonitor := mkNotifyMonitor {
  nm_id : Z;
  nm_name : string;
  nm_type : option string;
  nm_types : option (list string);          (* json.loads(types); None if invalid *)
  nm_target : string;
  nm_notify_channels : option (list Z)      (* json.loads(notify_channels), a list of
                                               channel ids; None if invalid *)
}.

(** A row of [notify_channels]; [ch_config] is [None] when the text is not
    a JSON object (then the first use of [config] in any sender raises,
    before any network call). *)
Record Channel := mkChannel {
  ch_id : Z;
  ch_type : string;
  ch_config : option Config;
  ch_enabled : Z
}.

(** The network calls of the senders; the JSON payloads are not kept. *)
Inductive NAction :=
| NPost (url : JVal)
| NGet (url : JVal)
| NSmtp (ssl : bool) (host : JVal) (port : JVal)
| NSmtpLogin (user pass : JVal).

Record NEnv := mkNEnv {
  n_request : NAction -> Exc Z;   (* requests.post/get: the status code *)
  n_smtp : NAction -> Exc unit;   (* SMTP_SSL/SMTP + starttls, login + send_message *)
  n_time : string                 (* datetime.now().strftime(...) *)
}.

Definition NM (A : Type) : Type := (list NAction * Exc A)%type.

Definition nm_ret {A} (a : A) : NM A := ([], Ok a).
Definition nm_bind {A B} (m : NM A) (f : A -> NM B) : NM B :=
  match m with
  | (t, Ok a) => let '(t', r) := f a in ((t ++ t')%list, r)
  | (t, Raise e) => (t, Raise e)
  end.
Definition nm_lift {A} (r : Exc A) : NM A := ([], r).
Definition nm_try {A} (m : NM A) (h : PyExn -> NM A) : NM A :=
  match m with
  | (t, Raise e) => let '(t', r) := h e in ((t ++ t')%list, r)
  | _ => m
  end.

Notation "x <-- m ; k" := (nm_bind m (fun x => k)) (at level 100, m at next level, right associativity).

(** [', '.join(t.upper() for t in types)] *)
Fixpoint join_upper (ts : list string) : string :=
  match ts with
  | [] => ""
  | [t] => py_upper t
  | t :: ts' => py_upper t +:+ ", " +:+ join_upper ts'
  end.

Definition status_text (status : Z) : string :=
  if status =? 0 then "❌ 故障告警" else "✅ 恢复正常".

(** [format_message]: the title and the content. *)
Definition format_message (env : NEnv) (m : NotifyMonitor) (status : Z) (message : string)
  : string * string :=
  let monitor_type :=
    match nm_type m with
    | Some t => if String.eqb t "" then join_upper (default ["http"] (nm_types m)) else py_upper t
    | None => join_upper (default ["http"] (nm_types m))
    end in
  ("[" +:+ status_text status +:+ "] " +:+ nm_name m,
   "监控项目: " +:+ nm_name m +:+ "
监控类型: " +:+ monitor_type +:+ "
监控地址: " +:+ nm_target m +:+ "
当前状态: " +:+ status_text status +:+ "
详细信息: " +:+ message +:+ "
检测时间: " +:+ n_time env).

Section Senders.
Variable env : NEnv.

Definition request (a : NAction) : NM Z := ([a], n_request env a).

(** The [try: ... except: return False] around the request of a sender. *)
Definition send_request (a : NAction) (ok : Z -> bool) : NM bool :=
  nm_try (code <-- request a; nm_ret (ok code)) (fun _ => nm_ret false).

Definition send_email (c : Config) (m : NotifyMonitor) (status : Z) (message : string) : NM bool :=
  nm_try
    (_ <-- nm_lift (cfg_key "from_email" c);
     _ <-- nm_lift (cfg_key "to_email" c);
     let use_ssl := py_truthy (default (JBool true) (cfg_get "use_ssl" c)) in
     host <-- nm_lift (cfg_key "smtp_host" c);
     let port := default (JNum (if use_ssl then 465 else 587)) (cfg_get "smtp_port" c) in
     _ <-- ([NSmtp use_ssl host port], n_smtp env (NSmtp use_ssl host port));
     user <-- nm_lift (cfg_key "smtp_user" c);
     pass <-- nm_lift (cfg_key "smtp_pass" c);
     _ <-- ([NSmtpLogin user pass], n_smtp env (NSmtpLogin user pass));
     nm_ret true)
    (fun _ => nm_ret false).

(** [send_webhook]: [config['url']] and [monitor['type']] are read before
    the [try]. *)
Definition send_webhook (c : Config) (m : NotifyMonitor) (status : Z) (message : string) : NM bool :=
  url <-- nm_lift (cfg_key "url" c);
  _ <-- nm_lift (match nm_type m with
                 | Some t => Ok t
                 | None => Raise (mkExn KeyError "'type'")
                 end);
  send_request (NPost url) (fun code => code <? 400).

Definition send_wechat (c : Config) (m : NotifyMonitor) (status : Z) (message : string) : NM bool :=
  url <-- nm_lift (cfg_key "webhook_url" c);
  send_request (NPost url) (fun code => code =? 200).

Definition send_telegram (c : Config) (m : NotifyMonitor) (status : Z) (message : string) : NM bool :=
  bot_token <-- nm_lift (cfg_key "bot_token" c);
  _ <-- nm_lift (cfg_key "chat_id" c);
  send_request (NPost (JStr ("https://api.telegram.org/bot" +:+ py_str bot_token +:+ "/sendMessage")))
               (fun code => code =? 200).

Definition send_bark (c : Config) (m : NotifyMonitor) (status : Z) (message : string) : NM bool :=
  let server := default (JStr "https://api.day.app") (cfg_get "server" c) in
  key <-- nm_lift (cfg_key "key" c);
  let title := (format_message env m status message).1 in
  send_request (NGet (JStr (py_str server +:+ "/" +:+ py_str key +:+ "/" +:+ title +:+ "/" +:+ message)))
               (fun code => code =? 200).

Definition send_pushplus (c : Config) (m : NotifyMonitor) (status : Z) (message : string) : NM bool :=
  _ <-- nm_lift (cfg_key "token" c);
  send_request (NPost (JStr "http://www.pushplus.plus/send")) (fun code => code =? 200).

Definition send_serverchan (c : Config) (m : NotifyMonitor) (status : Z) (message : string) : NM bool :=
  sendkey <-- nm_lift (cfg_key "sendkey" c);
  send_request (NPost (JStr ("https://sctapi.ftqq.com/" +:+ py_str sendkey +:+ ".send")))
               (fun code => code =? 200).

(** The table [self.handlers]. *)
Definition handlers (t : string)
  : option (Config -> NotifyMonitor -> Z -> string -> NM bool) :=
  if String.eqb t "email" then Some send_email
  else if String.eqb t "webhook" then Some send_webhook
  else if String.eqb t "wechat" then Some send_wechat
  else if String.eqb t "telegram" then Some send_telegram
  else if String.eqb t "bark" then Some send_bark
  else if String.eqb t "pushplus" then Some send_pushplus
  else if String.eqb t "serverchan" then Some send_serverchan
  else None.

(** [Notifier.send] *)
Definition notifier_send (ch : Channel) (m : NotifyMonitor) (status : Z) (message : string) : NM bool :=
  match handlers (ch_type ch) with
  | None => nm_ret false
  | Some handler =>
      nm_try
        (config <-- nm_lift (match ch_config ch with
                             | Some c => Ok c
                             | None => Raise (mkExn ValueError "Expecting value")
                             end);
         handler config m status message)
        (fun _ => nm_ret false)
  end.

(** [send_notification] over the rows of [get_all_notify_channels()]: the
    channels sent to, each with its network calls and result. *)
Definition send_notification (channels : list Channel) (m : NotifyMonitor) (status : Z)
    (message : string) : list (Z * NM bool) :=
  let ids := default [] (nm_notify_channels m) in
  match ids with
  | [] => []
  | _ => map (fun ch => (ch_id ch, notifier_send ch m status message))
             (List.filter (fun ch => bool_decide (ch_id ch ∈ ids) && negb (ch_enabled ch =? 0)) channels)
  end.

End Senders.

(* ------------------------------------------------------------------ *)
(** ** The dashboard (src/app.py [api_get_monitors], [api_get_stats]) *)

Section Dashboard.
(** [ORDER BY created_at DESC LIMIT 1] on the selected rows of
    [monitor_logs] (listed in insertion order): [newest] picks one of
    them, and answers [None] only when there are none. *)
Variable newest : list LogRow -> option LogRow.

(** [get_latest_status(monitor_id, check_type)] *)
Definition get_latest_status (logs : list LogRow) (monitor_id : Z) (check_type : option string)
  : option LogRow :=
  newest (List.filter (fun r => (log_monitor r =? monitor_id) &&
                                match check_type with
                                | Some t => String.eqb (log_type r) t
                                | None => true
                                end) logs).

(** The [status] and [message] shown in [type_results[check_type]]. *)
Definition type_result (logs : list LogRow) (m : Monitor) (t : string) : Z * string :=
  match get_latest_status logs (m_id m) (Some t) with
  | Some r => (log_status r, log_message r)
  | None => (0, "等待检查")
  end.

(** [overall_status] of [api_get_monitors], shown as [current_status]. *)
Definition current_status (logs : list LogRow) (m : Monitor) : Z :=
  fold_left (fun overall t =>
               match get_latest_status logs (m_id m) (Some t) with
               | Some r => if log_status r =? 0 then 0 else overall
               | None => overall
               end) (parse_types m) 1.

(** [stats] of [api_get_monitors]: total, online, offline. *)
Definition monitors_stats (logs : list LogRow) (ms : list Monitor) : Z * Z * Z :=
  let online := Z.of_nat (length (List.filter (fun m => current_status logs m =? 1) ms)) in
  (Z.of_nat (length ms), online, Z.of_nat (length ms) - online).

(** The counts of [api_get_stats]: a monitor is online when its newest
    row of any type has status 1. *)
Definition api_stats_counts (logs : list LogRow) (ms : list Monitor) : Z * Z * Z :=
  let online := Z.of_nat (length (List.filter (fun m =>
                  match get_latest_status logs (m_id m) None with
                  | Some r => log_status r =? 1
                  | None => false
                  end) ms)) in
  (Z.of_nat (length ms), online, Z.of_nat (length ms) - online).

End Dashboard.

(* ------------------------------------------------------------------ *)
(** ** Concrete inputs *)

(** [int(s)] on an optional minus sign followed by decimal digits. *)
Fixpoint digits_value (acc : Z) (s : string) : option Z :=
  match s with
  | EmptyString => Some acc
  | String c s' =>
      let n := Z.of_nat (Ascii.nat_of_ascii c) in
      if (48 <=? n) && (n <=? 57) then digits_value (acc * 10 + (n - 48)) s' else None
  end.

Definition py_int (s : string) : Exc Z :=
  let err := Raise (mkExn ValueError ("invalid literal for int() with base 10: '" +:+ s +:+ "'")) in
  match s with
  | EmptyString => err
  | String c s' =>
      if Ascii.eqb c (Ascii.ascii_of_nat 45) then
        match s' with
        | EmptyString => err
        | _ => match digits_value 0 s' with Some z => Ok (- z) | None => err end
        end
      else match digits_value 0 s with Some z => Ok z | None => err end
  end.

(** The two clocks [check_push] compares: [created_at] of a heartbeats
    row is SQLite's CURRENT_TIMESTAMP, the UTC time of the insert, while
    [datetime.now()] is the server's local time, UTC plus the offset of
    its time zone (28800 s for Asia/Shanghai). *)
Definition local_now (utc tz_offset : Z) : Z := utc + tz_offset.

Definition shanghai_offset : Z := 8 * 3600.

(** A world where every HTTP request gets [code] and [body], the clock
    reads [now], the certificate expires at [not_after] and the heartbeat
    table answers [hb]. *)
Definition fixture_env (code : Z) (body : string) (now not_after : Z)
    (hb : Z -> option Heartbeat) : Env :=
  {| w_http := fun _ => Ok (mkResp code body);
     w_tcp := fun _ _ => Ok 0;
     w_tls_not_after := fun _ => Ok not_after;
     w_last_heartbeat := hb;
     w_has_pymysql := true; w_mysql := fun _ _ _ _ _ => Ok tt;
     w_has_redis := true; w_redis := fun _ _ => Ok tt;
     w_now := now; w_rtt_ms := 15;
     w_urlparse_hostname := fun _ => Some "example.com";
     w_int := py_int |}.

Definition fixture_monitor (t : string) (types : list string) (keyword : string) : Monitor :=
  mkMonitor 1 "example" t (Some types) "https://example.com" "GET" (HDict []) ""
            30 200 keyword 80 60 true.

(** A push monitor, and the state after [GET /api/push/1?status=2]. *)
Definition push_monitor : Monitor := fixture_monitor "push" ["push"] "".

Definition push_request_status_2 : PushRequest := mkPush "GET" PBNotJson (Some "2") None.

Definition before_push : AppState :=
  mkApp ∅ ∅ {[1 := push_monitor]} [] [].

Definition after_push : AppState :=
  match api_push_heartbeat py_int "1" push_request_status_2 1000 "2026-01-01 08:00:00" before_push with
  | Ok (st, _) => st
  | Raise _ => before_push
  end.

(** A second push to monitor 1 within the same second, without
    arguments (status 1, 'OK'). *)
Definition push_request_ok : PushRequest := mkPush "GET" PBNotJson None None.

Definition after_second_push : AppState :=
  match api_push_heartbeat py_int "1" push_request_ok 1000 "2026-01-01 08:00:00" after_push with
  | Ok (st, _) => st
  | Raise _ => after_push
  end.

(** A push to monitor 1 without arguments (status 1, 'OK') at
    2026-01-01 00:00:00 UTC. *)
Definition fresh_push : AppState :=
  match api_push_heartbeat py_int "1" push_request_ok 1767225600 "2026-01-01 00:00:00" before_push with
  | Ok (st, _) => st
  | Raise _ => before_push
  end.

(** A monitor whose last scheduled http check was up, with its job. *)
Definition http_monitor : Monitor := fixture_monitor "http" ["http"] "".

Definition tracked_state : AppState :=
  mkApp {[1 := {["http" := 1]}]} {[job_id 1 := http_monitor]} {[1 := http_monitor]} [] [].

Definition probe_down (i : nat) (m : Monitor) : CheckResult := mkResult 0 15 500 "状态码 500".

(** A monitor of type [t] with the given target and headers. *)
Definition target_monitor (t target : string) (headers : Headers) : Monitor :=
  mkMonitor 1 "example" t (Some [t]) target "GET" headers "" 30 200 "" 3306 60 true.

(** A world where every HTTP request times out. *)
Definition timeout_env : Env :=
  {| w_http := fun _ => Raise (mkExn ReqTimeout "timed out");
     w_tcp := fun _ _ => Ok 0;
     w_tls_not_after := fun _ => Ok 0;
     w_last_heartbeat := fun _ => None;
     w_has_pymysql := true; w_mysql := fun _ _ _ _ _ => Ok tt;
     w_has_redis := true; w_redis := fun _ _ => Ok tt;
     w_now := 0; w_rtt_ms := 15;
     w_urlparse_hostname := fun _ => Some "example.com";
     w_int := py_int |}.

(** A stand-in for [hash_password] in the examples. *)
Definition toy_hash (s : string) : string := "sha256:" +:+ s.

Definition admin_state : AuthState :=
  mkAuth (Some (mkAdmin "admin" (toy_hash "secret1"))) {[ "3f9a" ]}.

Definition login_body (user password : string) : AuthBody :=
  mkAuthBody (Some user) (Some password) None None.

Definition password_body (old new : string) : AuthBody :=
  mkAuthBody None None (Some old) (Some new).

(** A WeChat channel and a webhook channel, and a world where every
    notification request gets [code]. *)
Definition wechat_channel : Channel :=
  mkChannel 7 "wechat" (Some [("webhook_url", JStr "https://qyapi.weixin.qq.com/hook")]) 1.

Definition webhook_channel : Channel :=
  mkChannel 8 "webhook" (Some [("url", JStr "https://hooks.example.com/alert")]) 1.

Definition notify_env (code : Z) : NEnv :=
  mkNEnv (fun _ => Ok code) (fun _ => Ok tt) "2026-01-01 08:00:00".

(** The monitor row [check_monitor] passes to [send_notification]. *)
Definition notify_row : NotifyMonitor :=
  mkNotifyMonitor 1 "example" None (Some ["http"]) "https://example.com" (Some [7; 8]).

(* ------------------------------------------------------------------ *)
(** ** Transition detection *)

Lemma lookup2_insert (ls : LastStatus) (mid : Z) (t : string) (s : Z) (k : Z * string) :
  lookup2 (<[mid := <[t := s]> (default ∅ (ls !! mid))]> ls) k =
  if bool_decide ((mid, t) = k) then Some s else lookup2 ls k.
Proof.
  destruct k as [kid kt]. unfold lookup2; simpl.
  case_bool_decide as Hk.
  - injection Hk as <- <-. rewrite lookup_insert_eq. simpl. by rewrite lookup_insert_eq.
  - destruct (decide (mid = kid)) as [<-|Hne].
    + rewrite lookup_insert_eq. simpl.
      rewrite lookup_insert_ne by congruence.
      by destruct (ls !! mid).
    + by rewrite lookup_insert_ne.
Qed.

Lemma lookup2_init (ls : LastStatus) (mid : Z) (k : Z * string) :
  lookup2 (match ls !! mid with Some _ => ls | None => <[mid := ∅]> ls end) k = lookup2 ls k.
Proof.
  destruct (ls !! mid) eqn:E; [done|].
  destruct k as [kid kt]. unfold lookup2; simpl.
  destruct (decide (mid = kid)) as [<-|Hne].
  - by rewrite lookup_insert_eq, E.
  - by rewrite lookup_insert_ne.
Qed.

Lemma expected_effects_app (ls0 : LastStatus) (a b hist : list Obs) :
  expected_effects ls0 hist (a ++ b) =
  expected_effects ls0 hist a ++ expected_effects ls0 (rev a ++ hist) b.
Proof.
  revert hist. induction a as [|o a IH]; intros hist; [done|].
  simpl. rewrite IH. rewrite <- !app_assoc. reflexivity.
Qed.

Section TickSpec.
Variable probe : nat -> Monitor -> CheckResult.

(** The loop of [check_monitor] follows the transition rule, with the map
    holding the most recent status of every key. *)
Lemma check_types_spec (m : Monitor) (types : list string) :
  forall (i : nat) (ls ls0 : LastStatus) (hist : list Obs),
  (forall k, lookup2 ls k = last_recorded ls0 hist k) ->
  (check_types probe m ls i types).2 = expected_effects ls0 hist (types_obs probe m i types) /\
  (forall k, lookup2 (check_types probe m ls i types).1 k =
             last_recorded ls0 (rev (types_obs probe m i types) ++ hist) k).
Proof.
  induction types as [|t ts IH]; intros i ls ls0 hist Hinv; simpl; [done|].
  destruct (String.eqb t "push"); [by apply IH|].
  set (r := probe i (with_type m t)).
  set (ls' := <[m_id m := <[t := status r]> (default ∅ (ls !! m_id m))]> ls).
  assert (Hinv' : forall k, lookup2 ls' k = last_recorded ls0 ((m, t, r) :: hist) k).
  { intros k. unfold ls'. rewrite lookup2_insert. simpl. unfold obs_key; simpl.
    case_bool_decide; [done|]. apply Hinv. }
  destruct (IH (S i) ls' ls0 ((m, t, r) :: hist) Hinv') as [Heff Hmap].
  destruct (check_types probe m ls' (S i) ts) as [ls'' effs] eqn:E. simpl in *.
  split.
  - rewrite Heff. f_equal. f_equal.
    unfold obs_key, obs_status; simpl.
    specialize (Hinv (m_id m, t)). unfold lookup2 in Hinv; simpl in Hinv.
    rewrite <- Hinv. by destruct (ls !! m_id m).
  - intros k. rewrite Hmap. by rewrite <- app_assoc.
Qed.

Lemma check_monitor_spec (m : Monitor) (ls ls0 : LastStatus) (hist : list Obs) :
  (forall k, lookup2 ls k = last_recorded ls0 hist k) ->
  (check_monitor probe m ls).2 = expected_effects ls0 hist (tick_obs probe m) /\
  (forall k, lookup2 (check_monitor probe m ls).1 k =
             last_recorded ls0 (rev (tick_obs probe m) ++ hist) k).
Proof.
  intros Hinv. unfold check_monitor, tick_obs.
  destruct (m_enabled m); simpl; [|done].
  apply check_types_spec. intros k. by rewrite lookup2_init.
Qed.

End TickSpec.

Lemma run_ticks_spec (ticks : list (Monitor * (nat -> Monitor -> CheckResult))) :
  forall (ls ls0 : LastStatus) (hist : list Obs),
  (forall k, lookup2 ls k = last_recorded ls0 hist k) ->
  (run_ticks ls ticks).2 = expected_effects ls0 hist (ticks_obs ticks) /\
  (forall k, lookup2 (run_ticks ls ticks).1 k =
             last_recorded ls0 (rev (ticks_obs ticks) ++ hist) k).
Proof.
  induction ticks as [|[m probe] rest IH]; intros ls ls0 hist Hinv; simpl; [done|].
  destruct (check_monitor_spec probe m ls ls0 hist Hinv) as [Heff Hmap].
  destruct (check_monitor probe m ls) as [ls' e1] eqn:E1. simpl in *.
  destruct (IH ls' ls0 (rev (tick_obs probe m) ++ hist) Hmap) as [Heff' Hmap'].
  destruct (run_ticks ls' rest) as [ls'' e2] eqn:E2. simpl in *.
  unfold ticks_obs in *. simpl.
  rewrite expected_effects_app, Heff, Heff'. split; [done|].
  intros k. rewrite Hmap', rev_app_distr. by rewrite <- app_assoc.
Qed.

(** C1: from process start ([last_status = {}]), over any run of scheduled
    ticks, every observation is logged, and an observation produces a
    transition event and a notification exactly when the most recent
    earlier observation of the same (monitor id, check type) recorded a
    different status; the first observation of a key produces none. *)
Theorem check_monitor_transitions (ticks : list (Monitor * (nat -> Monitor -> CheckResult))) :
  (run_ticks ∅ ticks).2 = expected_effects ∅ [] (ticks_obs ticks).
Proof.
  destruct (run_ticks_spec ticks ∅ ∅ [] (fun k => eq_refl)) as [H _]. exact H.
Qed.

(** C2: when the HTTP probe sends its request and receives a response with
    code [c], the result has status 1 iff [c < 400] or [c] equals
    [expected_status], status 0 otherwise, and carries [c]. *)
Theorem check_http_status_rule (env : Env) (m : Monitor) (req : HttpRequest) (resp : HttpResponse) :
  (check_http env m).1 = [ActHttp req] ->
  w_http env req = Ok resp ->
  exists r, (check_http env m).2 = Ok r /\ status_code r = resp_code resp /\
    (status r = 1 <-> resp_code resp < 400 \/ resp_code resp = m_expected_status m) /\
    (status r = 0 <-> ~ (resp_code resp < 400 \/ resp_code resp = m_expected_status m)).
Proof.
  intros Htr Hresp.
  assert (Hst : forall c e, (http_status c e = 1 <-> c < 400 \/ c = e) /\
                            (http_status c e = 0 <-> ~ (c < 400 \/ c = e))).
  { intros c e. unfold http_status.
    destruct (Z.eqb_spec c e), (Z.ltb_spec c 400); simpl; split; split; intros; lia. }
  unfold check_http in *.
  destruct (m_headers m) eqn:Hh; cbn in Htr |- *;
    [| | discriminate].
  all: set (req0 := http_request m _) in *.
  all: destruct (w_http env req0) as [resp'|e] eqn:Hw; cbn in Htr |- *.
  all: try (destruct (exn_kind e); cbn in Htr |- *).
  all: injection Htr as Heq; rewrite <- Heq, Hw in Hresp; try discriminate.
  all: injection Hresp as ->; eexists; split; [reflexivity|]; cbn; split; [reflexivity|].
  all: apply Hst.
Qed.



(** The push probe only reads the last heartbeat of the monitor (no
    network I/O); with none it reports status 0 'never received'; when
    [datetime.now()] minus the parsed [created_at] exceeds twice the
    interval it reports status 0 'stale'; otherwise it reports the
    heartbeat's own status and message.  The difference is the
    heartbeat's age only on a server whose local time is UTC. *)
Theorem check_push_verdict (env : Env) (m : Monitor) :
  (check_push env m).1 = [ActReadHeartbeat (m_id m)] /\
  match w_last_heartbeat env (m_id m) with
  | None => (check_push env m).2 = Ok (failed 0 "从未收到心跳")
  | Some hb =>
      (w_now env - hb_created_at hb > 2 * m_interval m ->
         (check_push env m).2 = Ok (failed 0 ("心跳超时，上次: " +:+ hb_created_at_text hb))) /\
      (w_now env - hb_created_at hb <= 2 * m_interval m ->
         exists r, (check_push env m).2 = Ok r /\
                   status r = hb_status hb /\ message r = hb_message hb)
  end.
Proof.
  unfold check_push. cbn.
  destruct (w_last_heartbeat env (m_id m)) as [hb|]; cbn; [|done].
  destruct (Z.ltb_spec (hb_created_at hb) (w_now env - m_interval m * 2)); cbn.
  - split; [done|]. split; [done|]. intros. lia.
  - split; [done|]. split; [intros; lia|]. intros _. by eexists.
Qed.

(** C4 (a fault of the code): [created_at] is stored in UTC and compared
    with the local [datetime.now()].  A heartbeat read [age] seconds after
    it was stored, on a server [tz] seconds ahead of UTC, is reported
    'stale' as soon as [age + tz] exceeds twice the interval, also when
    the heartbeat is fresh ([age <= 2 * interval]). *)
Theorem check_push_utc_created_at (env : Env) (m : Monitor) (hb : Heartbeat) (u age tz : Z) :
  w_last_heartbeat env (m_id m) = Some hb ->
  hb_created_at hb = u ->
  w_now env = local_now (u + age) tz ->
  2 * m_interval m < age + tz ->
  (check_push env m).2 = Ok (failed 0 ("心跳超时，上次: " +:+ hb_created_at_text hb)).
Proof.
  intros Hhb Hu Hnow Hlt. unfold check_push. cbn. rewrite Hhb. cbn.
  rewrite Hu, Hnow. unfold local_now.
  by destruct (Z.ltb_spec u (u + age + tz - m_interval m * 2)); [|lia].
Qed.

(** C4 fails on a server in Asia/Shanghai: a heartbeat of status 1 pushed
    at 2026-01-01 00:00:00 UTC and read at once (age 0, interval 60) is
    reported 'stale' with status 0. *)
Lemma push_fresh_heartbeat_stale :
  last_heartbeat fresh_push 1 = Some (mkHeartbeat 1 "OK" 1767225600 "2026-01-01 00:00:00") /\
  (check_push (fixture_env 200 "" (local_now 1767225600 shanghai_offset) 0 (last_heartbeat fresh_push))
              push_monitor).2 =
    Ok (failed 0 "心跳超时，上次: 2026-01-01 00:00:00").
Proof. split; vm_compute; reflexivity. Qed.

(** C5: [MonitorChecker.check] never raises: whatever the selected probe
    does, a result is returned, with the probe's own I/O; when the probe
    raises [e], the result has status 0 and [str(e)] as its message. *)
Theorem check_never_raises (env : Env) (m : Monitor) :
  (check env m).1 = (run_checker env (select_checker (m_type m)) m).1 /\
  exists r, (check env m).2 = Ok r /\
    (forall e, (run_checker env (select_checker (m_type m)) m).2 = Raise e ->
               r = mkResult 0 0 0 (exn_str e)).
Proof.
  unfold check, try_except.
  destruct (run_checker env (select_checker (m_type m)) m) as [t [r|e]]; cbn.
  - split; [done|]. exists r. split; [done|]. discriminate.
  - rewrite app_nil_r. split; [done|]. eexists; split; [reflexivity|].
    intros e' He'. by injection He' as ->.
Qed.

Lemma check_http_ignores_type (env : Env) (m : Monitor) (t : string) :
  check_http env (with_type m t) = check_http env m.
Proof. unfold with_type. destruct m. reflexivity. Qed.

(** C10: a check type outside the ten registered ones is run by the HTTP
    probe, exactly as the type 'http' would be. *)
Theorem unknown_type_falls_back_to_http (env : Env) (m : Monitor) :
  m_type m ∉ registered_types ->
  select_checker (m_type m) = CkHttp /\ check env m = check env (with_type m "http").
Proof.
  intros Hnot. unfold registered_types in Hnot.
  assert (Hsel : select_checker (m_type m) = CkHttp).
  { unfold select_checker, checkers.
    repeat (match goal with |- context [String.eqb ?a ?b] => destruct (String.eqb_spec a b) end).
    all: try reflexivity.
    all: exfalso; apply Hnot; rewrite e.
    all: left || (repeat constructor). }
  split; [exact Hsel|].
  unfold check. rewrite Hsel.
  replace (select_checker (m_type (with_type m "http"))) with CkHttp by reflexivity.
  cbn [run_checker]. by rewrite check_http_ignores_type.
Qed.

(* ------------------------------------------------------------------ *)
(** ** The status of a probe result *)

Ltac status_cases :=
  let r := fresh "r" in let Hr := fresh "Hr" in
  intros r Hr;
  unfold mret, M_ret, mbind, M_bind, raise, perform, try_except, failed in *;
  repeat (case_match; simplify_eq/=); auto.

Lemma check_http_binary (env : Env) (m : Monitor) :
  forall r, (check_http env m).2 = Ok r -> status r = 0 \/ status r = 1.
Proof. unfold check_http, http_status. cbn. status_cases. Qed.

Lemma check_keyword_binary (env : Env) (m : Monitor) :
  forall r, (check_keyword env m).2 = Ok r -> status r = 0 \/ status r = 1.
Proof. unfold check_keyword. cbn. pose proof (check_http_binary env m). status_cases. Qed.

Lemma check_port_binary (env : Env) (m : Monitor) :
  forall r, (check_port env m).2 = Ok r -> status r = 0 \/ status r = 1.
Proof. unfold check_port. cbn. status_cases. Qed.

Lemma check_ssl_cert_binary (env : Env) (m : Monitor) :
  forall r, (check_ssl_cert env m).2 = Ok r -> status r = 0 \/ status r = 1.
Proof. unfold check_ssl_cert, ssl_verdict. cbn. status_cases. Qed.

Lemma check_mysql_binary (env : Env) (m : Monitor) :
  forall r, (check_mysql env m).2 = Ok r -> status r = 0 \/ status r = 1.
Proof. unfold check_mysql. cbn. status_cases. Qed.

Lemma check_redis_binary (env : Env) (m : Monitor) :
  forall r, (check_redis env m).2 = Ok r -> status r = 0 \/ status r = 1.
Proof. unfold check_redis. cbn. status_cases. Qed.

(** The push probe passes the stored status through unchecked. *)
Lemma check_push_status (env : Env) (m : Monitor) :
  forall r, (check_push env m).2 = Ok r ->
  status r = 0 \/ exists hb, w_last_heartbeat env (m_id m) = Some hb /\ status r = hb_status hb.
Proof.
  intros r Hr. unfold check_push in Hr. cbn in Hr.
  destruct (w_last_heartbeat env (m_id m)) as [hb|] eqn:Hb; cbn in Hr.
  - destruct (_ <? _); cbn in Hr; injection Hr as <-; [by left|].
    right. by exists hb.
  - injection Hr as <-. by left.
Qed.

Lemma check_result_origin (env : Env) (m : Monitor) (r : CheckResult) :
  (check env m).2 = Ok r ->
  (run_checker env (select_checker (m_type m)) m).2 = Ok r \/ status r = 0.
Proof.
  unfold check, try_except.
  destruct (run_checker env (select_checker (m_type m)) m) as [t [r'|e]]; cbn.
  - by left.
  - intros Hr. injection Hr as <-. by right.
Qed.

Lemma check_returns (env : Env) (m : Monitor) : exists r, (check env m).2 = Ok r.
Proof.
  unfold check, try_except.
  destruct (run_checker env (select_checker (m_type m)) m) as [t [r|e]]; cbn; by eexists.
Qed.

(** C6 (as amended): every probe result has status 0 or 1, except that
    the push probe returns the status of the stored heartbeat as it is. *)
Theorem check_status_binary_except_push (env : Env) (m : Monitor) :
  exists r, (check env m).2 = Ok r /\
    (status r = 0 \/ status r = 1 \/
     (select_checker (m_type m) = CkPush /\
      exists hb, w_last_heartbeat env (m_id m) = Some hb /\ status r = hb_status hb)).
Proof.
  destruct (check_returns env m) as [r Hr].
  exists r. split; [exact Hr|].
  destruct (check_result_origin env m r Hr) as [Hc|Hz]; [|by left].
  destruct (select_checker (m_type m)) eqn:Hsel; cbn [run_checker] in Hc.
  - destruct (check_http_binary env m r Hc); auto.
  - destruct (check_keyword_binary env m r Hc); auto.
  - destruct (check_port_binary env m r Hc); auto.
  - destruct (check_port_binary env _ r Hc); auto.
  - destruct (check_ssl_cert_binary env m r Hc); auto.
  - destruct (check_push_status env m r Hc) as [?|?]; auto.
  - destruct (check_mysql_binary env m r Hc); auto.
  - destruct (check_redis_binary env m r Hc); auto.
Qed.

(** C6 fails as stated: after [GET /api/push/1?status=2] the push probe of
    monitor 1 reports status 2. *)
Lemma push_status_two :
  ~ (forall (env : Env) (m : Monitor),
       exists r, (check env m).2 = Ok r /\ (status r = 0 \/ status r = 1)).
Proof.
  intros H.
  destruct (H (fixture_env 200 "" 1000 0 (last_heartbeat after_push)) push_monitor)
    as [r [Hr Hs]].
  vm_compute in Hr. injection Hr as <-. simpl in Hs. lia.
Qed.

(* ------------------------------------------------------------------ *)
(** ** The keyword probe *)

(** C7 (as amended): the keyword probe runs the http probe first and
    fetches the page a second time exactly when that probe returned status
    1 and the configured keyword is non-empty; a body without the keyword
    turns the result into status 0 'keyword not found', a body with it
    keeps the status, and a failing second fetch leaves the http result as
    it is. *)
Theorem check_keyword_second_fetch (env : Env) (m : Monitor) :
  let h := check_http env m in
  let second := match h.2 with
                | Ok r => (status r =? 1) && negb (String.eqb (m_keyword m) "")
                | Raise _ => false
                end in
  (check_keyword env m).1 = h.1 ++ (if second then [ActHttp (keyword_request m)] else []) /\
  match h.2 with
  | Ok r =>
      if second then
        match w_http env (keyword_request m) with
        | Ok resp =>
            (check_keyword env m).2 =
              Ok (if py_contains (m_keyword m) (resp_text resp)
                  then mkResult (status r) (response_time r) (status_code r)
                                ("包含关键词: " +:+ m_keyword m)
                  else mkResult 0 (response_time r) (status_code r)
                                ("未找到关键词: " +:+ m_keyword m))
        | Raise _ => (check_keyword env m).2 = Ok r
        end
      else (check_keyword env m).2 = Ok r
  | Raise e => (check_keyword env m).2 = Raise e
  end.
Proof.
  unfold check_keyword. cbn.
  destruct (check_http env m) as [t [r|e]]; cbn; [|by rewrite app_nil_r].
  destruct ((status r =? 1) && negb (String.eqb (m_keyword m) "")); cbn;
    [|by rewrite !app_nil_r].
  destruct (w_http env (keyword_request m)); cbn;
    [destruct (py_contains (m_keyword m) (resp_text a)); cbn|]; by rewrite ?app_nil_r.
Qed.

(** C7 fails as stated: with an empty keyword the page is fetched once,
    although the http probe succeeded. *)
Lemma keyword_empty_single_fetch :
  ~ (forall (env : Env) (m : Monitor) (r : CheckResult),
       (check_http env m).2 = Ok r -> status r = 1 ->
       (check_keyword env m).1 = (check_http env m).1 ++ [ActHttp (keyword_request m)]).
Proof.
  intros H.
  specialize (H (fixture_env 200 "" 0 0 (fun _ => None)) (fixture_monitor "keyword" ["keyword"] "")
                (mkResult 1 15 200 "OK")).
  assert (H1 : (check_http (fixture_env 200 "" 0 0 (fun _ => None))
                  (fixture_monitor "keyword" ["keyword"] "")).2 = Ok (mkResult 1 15 200 "OK"))
    by (vm_compute; reflexivity).
  specialize (H H1 eq_refl). vm_compute in H. discriminate H.
Qed.

(* ------------------------------------------------------------------ *)
(** ** Deleting a monitor and checking it by hand *)

(** C8 (as amended): a successful delete removes the monitor's scheduler
    job, so no job of the scheduler runs the monitor any more, but it
    leaves [last_status] as it was, entries of the monitor included. *)
Theorem delete_unschedules_keeps_tracker (st st' : AppState) (monitor_id : Z) :
  jobs_keyed st ->
  api_delete_monitor true monitor_id st = (st', 200) ->
  (forall j m, jobs st' !! j = Some m -> m_id m <> monitor_id) /\
  jobs_keyed st' /\
  monitors st' !! monitor_id = None /\
  last_status st' = last_status st.
Proof.
  intros Hkeyed Hdel. unfold api_delete_monitor in Hdel. cbn in Hdel.
  destruct (monitors st !! monitor_id) as [m|]; [|discriminate].
  injection Hdel as <-. cbn.
  split; [|split; [|split]].
  - intros j m' Hj Hid. simpl in Hj. apply lookup_delete_Some in Hj as [Hne Hj].
    apply Hkeyed in Hj. subst. done.
  - intros j m' Hj. simpl in Hj. apply lookup_delete_Some in Hj as [_ Hj]. by apply Hkeyed.
  - apply lookup_delete_eq.
  - done.
Qed.

Lemma delete_unschedules_keeps_tracker_witness :
  jobs_keyed tracked_state /\
  api_delete_monitor true 1 tracked_state = ((api_delete_monitor true 1 tracked_state).1, 200) /\
  ((forall j m, jobs (api_delete_monitor true 1 tracked_state).1 !! j = Some m -> m_id m <> 1) /\
   jobs_keyed (api_delete_monitor true 1 tracked_state).1 /\
   monitors (api_delete_monitor true 1 tracked_state).1 !! 1 = None /\
   last_status (api_delete_monitor true 1 tracked_state).1 = last_status tracked_state).
Proof.
  assert (Hk : jobs_keyed tracked_state).
  { intros j m Hj. simpl in Hj. apply lookup_singleton_Some in Hj as [<- <-]. reflexivity. }
  assert (Hd : api_delete_monitor true 1 tracked_state =
               ((api_delete_monitor true 1 tracked_state).1, 200)) by reflexivity.
  split; [exact Hk|]. split; [exact Hd|].
  exact (delete_unschedules_keeps_tracker tracked_state _ 1 Hk Hd).
Defined.

(** C8 fails as stated: after deleting monitor 1 its http entry is still
    in [last_status]. *)
Lemma delete_keeps_tracker_entry :
  ~ (forall (st st' : AppState) (monitor_id : Z),
       api_delete_monitor true monitor_id st = (st', 200) ->
       forall t, lookup2 (last_status st') (monitor_id, t) = None).
Proof.
  intros H.
  assert (Hd : api_delete_monitor true 1 tracked_state =
               ((api_delete_monitor true 1 tracked_state).1, 200)) by reflexivity.
  specialize (H _ _ _ Hd "http"). vm_compute in H. discriminate H.
Qed.

(** C9 (as amended): a manual check appends one log row per non-push type
    and nothing else: [last_status] and the scheduler are untouched and no
    event or notification is produced. *)
Theorem check_now_bypasses_tracker (monitor_id : Z) (probe : nat -> Monitor -> CheckResult)
    (st : AppState) :
  let st' := (api_check_now monitor_id probe st).1 in
  last_status st' = last_status st /\ jobs st' = jobs st /\
  out st' = out st ++ match monitors st !! monitor_id with
                      | Some m => map log_effect (types_obs probe m 0 (parse_types m))
                      | None => []
                      end.
Proof.
  unfold api_check_now. destruct (monitors st !! monitor_id); cbn; [done|].
  by rewrite app_nil_r.
Qed.

(** C9 fails as stated: monitor 1 was up at its last tick; a manual check
    that finds it down neither updates [last_status] nor produces the
    event and notification a scheduled tick produces. *)
Lemma check_now_skips_transition :
  ~ (forall (monitor_id : Z) (probe : nat -> Monitor -> CheckResult) (st : AppState) (m : Monitor),
       monitors st !! monitor_id = Some m -> m_enabled m = true ->
       last_status (api_check_now monitor_id probe st).1 = (check_monitor probe m (last_status st)).1 /\
       out (api_check_now monitor_id probe st).1 = out st ++ (check_monitor probe m (last_status st)).2).
Proof.
  intros H.
  assert (Hm : monitors tracked_state !! 1 = Some http_monitor) by reflexivity.
  destruct (H 1 probe_down tracked_state http_monitor Hm eq_refl) as [_ Hout].
  vm_compute in Hout. discriminate Hout.
Qed.

(* ------------------------------------------------------------------ *)
(** ** Witnesses *)

Lemma check_http_status_rule_witness :
  (check_http (fixture_env 404 "" 0 0 (fun _ => None)) http_monitor).1 =
    [ActHttp (http_request http_monitor [("User-Agent", "SiteMonitor/1.0")])] /\
  w_http (fixture_env 404 "" 0 0 (fun _ => None))
    (http_request http_monitor [("User-Agent", "SiteMonitor/1.0")]) = Ok (mkResp 404 "") /\
  exists r, (check_http (fixture_env 404 "" 0 0 (fun _ => None)) http_monitor).2 = Ok r /\
    status_code r = resp_code (mkResp 404 "") /\
    (status r = 1 <-> resp_code (mkResp 404 "") < 400 \/
                      resp_code (mkResp 404 "") = m_expected_status http_monitor) /\
    (status r = 0 <-> ~ (resp_code (mkResp 404 "") < 400 \/
                         resp_code (mkResp 404 "") = m_expected_status http_monitor)).
Proof.
  assert (H1 : (check_http (fixture_env 404 "" 0 0 (fun _ => None)) http_monitor).1 =
               [ActHttp (http_request http_monitor [("User-Agent", "SiteMonitor/1.0")])])
    by (vm_compute; reflexivity).
  assert (H2 : w_http (fixture_env 404 "" 0 0 (fun _ => None))
                 (http_request http_monitor [("User-Agent", "SiteMonitor/1.0")]) =
               Ok (mkResp 404 "")) by reflexivity.
  split; [exact H1|]. split; [exact H2|].
  exact (check_http_status_rule _ _ _ _ H1 H2).
Defined.


Lemma unknown_type_falls_back_to_http_witness :
  (m_type (fixture_monitor "zabbix" ["zabbix"] "") ∉ registered_types) /\
  select_checker (m_type (fixture_monitor "zabbix" ["zabbix"] "")) = CkHttp /\
  check (fixture_env 200 "" 0 0 (fun _ => None)) (fixture_monitor "zabbix" ["zabbix"] "") =
  check (fixture_env 200 "" 0 0 (fun _ => None))
        (with_type (fixture_monitor "zabbix" ["zabbix"] "") "http").
Proof.
  assert (Hn : m_type (fixture_monitor "zabbix" ["zabbix"] "") ∉ registered_types).
  { apply (bool_decide_unpack _). vm_compute. reflexivity. }
  split; [exact Hn|].
  exact (unknown_type_falls_back_to_http _ _ Hn).
Defined.

(* ------------------------------------------------------------------ *)
(** ** Address parsing of the probes *)

Lemma py_contains_cons (c x : Ascii.ascii) (s : string) :
  py_contains (String c EmptyString) (String x s) =
  Ascii.eqb c x || py_contains (String c EmptyString) s.
Proof.
  simpl. destruct (Ascii.ascii_dec c x) as [->|Hne].
  - rewrite Ascii.eqb_refl. by destruct s.
  - apply Ascii.eqb_neq in Hne. rewrite Hne. by destruct s.
Qed.

Lemma split1_app (c : Ascii.ascii) (a b : string) :
  py_contains (String c EmptyString) a = false ->
  split1 c (a +:+ String c b) = Some (a, b).
Proof.
  induction a as [|x a IH]; intros Ha; simpl.
  - by rewrite Ascii.eqb_refl.
  - rewrite py_contains_cons in Ha. apply orb_false_iff in Ha as [Hx Ha].
    rewrite Ascii.eqb_sym, Hx. by rewrite IH.
Qed.

Lemma split1_none (c : Ascii.ascii) (s : string) :
  py_contains (String c EmptyString) s = false -> split1 c s = None.
Proof.
  induction s as [|x s IH]; intros Hs; [done|].
  rewrite py_contains_cons in Hs. apply orb_false_iff in Hs as [Hx Hs].
  simpl. rewrite Ascii.eqb_sym, Hx. by rewrite IH.
Qed.

Lemma rsplit1_none (c : Ascii.ascii) (s : string) :
  py_contains (String c EmptyString) s = false -> rsplit1 c s = None.
Proof.
  induction s as [|x s IH]; intros Hs; [done|].
  rewrite py_contains_cons in Hs. apply orb_false_iff in Hs as [Hx Hs].
  simpl. rewrite IH by done. by rewrite Ascii.eqb_sym, Hx.
Qed.

Lemma rsplit1_app (c : Ascii.ascii) (a b : string) :
  py_contains (String c EmptyString) b = false ->
  rsplit1 c (a +:+ String c b) = Some (a, b).
Proof.
  intros Hb. induction a as [|x a IH]; simpl.
  - rewrite rsplit1_none by done. by rewrite Ascii.eqb_refl.
  - by rewrite IH.
Qed.

Lemma py_contains_char_app (c : Ascii.ascii) (a b : string) :
  py_contains (String c EmptyString) (a +:+ b) =
  py_contains (String c EmptyString) a || py_contains (String c EmptyString) b.
Proof.
  induction a as [|x a IH]; [done|].
  change (String x a +:+ b) with (String x (a +:+ b)). rewrite !py_contains_cons, IH. by rewrite orb_assoc.
Qed.

Lemma string_app_assoc' (a b c : string) : a +:+ (b +:+ c) = (a +:+ b) +:+ c.
Proof. induction a as [|x a IH]; [done|]. exact (f_equal (String x) IH). Qed.

Lemma substring_all (s : string) : String.substring 0 (String.length s) s = s.
Proof. induction s as [|x s IH]; [done|]. exact (f_equal (String x) IH). Qed.

Lemma py_startswith_app (p s : string) : py_startswith p (p +:+ s) = true.
Proof.
  unfold py_startswith. induction p as [|x p IH]; [by destruct s|].
  simpl. destruct (Ascii.ascii_dec x x); [exact IH|done].
Qed.

Lemma string_length_app (a b : string) :
  String.length (a +:+ b) = (String.length a + String.length b)%nat.
Proof. induction a as [|x a IH]; [done|]. simpl. by rewrite IH. Qed.

Lemma substring_long (n : nat) (s : string) :
  (String.length s <= n)%nat -> String.substring 0 n s = s.
Proof.
  revert n. induction s as [|x s IH]; intros n Hn; [by destruct n|].
  destruct n as [|n]; simpl in Hn; [lia|]. simpl. f_equal. apply IH. lia.
Qed.

Lemma substring_app (p s : string) (n : nat) :
  (String.length s <= n)%nat -> String.substring (String.length p) n (p +:+ s) = s.
Proof.
  intros Hn. induction p as [|x p IH]; [by apply substring_long|]. exact IH.
Qed.

(** Port probe: a [host:port] target is probed at the port it names,
    whatever the [port] column says. *)
Theorem check_port_embedded_port (env : Env) (m : Monitor) (host p : string) (port : Z) :
  m_target m = host +:+ String colon p ->
  py_contains (String colon EmptyString) p = false ->
  py_startswith "[" (m_target m) = false ->
  w_int env p = Ok port ->
  exists r, check_port env m = ([ActTcp host port], Ok r) /\
            (status r = 1 <-> w_tcp env host port = Ok 0).
Proof.
  intros Ht Hp Hb Hi. unfold check_port. rewrite Hb, Ht, rsplit1_app by done.
  rewrite Hi. cbn.
  destruct (w_tcp env host port) as [z|e] eqn:Hw; cbn.
  - destruct (Z.eqb_spec z 0) as [->|Hz]; cbn; eexists; split; try reflexivity;
      cbn; split; intros H; congruence.
  - destruct (exn_kind e); cbn; eexists; split; try reflexivity; cbn; split; intros H; congruence.
Qed.

(** Port probe: when the port written in a [host:port] target is not an
    integer, [int()] raises before the socket is opened; [check] reports
    the error with status 0 and nothing is sent. *)
Theorem check_port_bad_port (env : Env) (m : Monitor) (host p : string) (e : PyExn) :
  (m_type m = "port" \/ m_type m = "tcp") ->
  m_target m = host +:+ String colon p ->
  py_contains (String colon EmptyString) p = false ->
  py_startswith "[" (m_target m) = false ->
  w_int env p = Raise e ->
  check env m = ([], Ok (mkResult 0 0 0 (exn_str e))).
Proof.
  intros Hty Ht Hp Hb Hi. unfold check.
  replace (select_checker (m_type m)) with CkPort by (destruct Hty as [-> | ->]; reflexivity).
  cbn [run_checker]. unfold check_port. rewrite Hb, Ht, rsplit1_app by done.
  rewrite Hi. reflexivity.
Qed.

(** Port and ping probes: a target without a colon is probed at the
    configured port by [check_port] and always at port 80 by [check_ping]. *)
Theorem check_port_ping_default_port (env : Env) (m : Monitor) :
  py_contains (String colon EmptyString) (m_target m) = false ->
  (check_port env m).1 = [ActTcp (m_target m) (m_port m)] /\
  (check_ping env m).1 = [ActTcp (m_target m) 80].
Proof.
  intros Hc. unfold check_ping, check_port. cbn [m_target m_port].
  rewrite rsplit1_none by done. cbn.
  split; destruct (w_tcp _ _ _) as [z|e]; cbn;
    try (destruct (z =? 0)); try (destruct (exn_kind e)); reflexivity.
Qed.

(** SSL probe: for a target that is not a URL the host is the text before
    the first colon, and the certificate is always fetched from port 443. *)
Theorem check_ssl_cert_host (env : Env) (m : Monitor) (host rest : string) :
  py_startswith "http" (m_target m) = false ->
  (m_target m = host \/ m_target m = host +:+ String colon rest) ->
  py_contains (String colon EmptyString) host = false ->
  (check_ssl_cert env m).1 = [ActTls host 443].
Proof.
  intros Hh Ht Hc. unfold check_ssl_cert. rewrite Hh.
  replace (split_head colon (m_target m)) with host.
  2:{ unfold split_head. destruct Ht as [-> | ->].
      - by rewrite split1_none.
      - by rewrite split1_app. }
  cbn. destruct (w_tls_not_after env host) as [x|e]; cbn; [reflexivity|].
  by destruct (exn_kind e).
Qed.

(** MySQL probe: [user:password@host:port/db] is split back into its
    parts.  The host and the password may contain colons, the host also
    slashes; the user has neither [:] nor [@], the password no [@], the
    port no [:] and the database name no [/]. *)
Theorem mysql_params_round_trip (env : Env) (user password host p db : string) (port : Z) :
  py_contains (String colon EmptyString) user = false ->
  py_contains (String at_sign EmptyString) user = false ->
  py_contains (String at_sign EmptyString) password = false ->
  py_contains (String colon EmptyString) p = false ->
  py_contains (String slash EmptyString) db = false ->
  w_int env p = Ok port ->
  mysql_params env (user +:+ String colon (password +:+ String at_sign
                      (host +:+ String colon (p +:+ String slash db)))) =
  Ok (user, password, db, host, port).
Proof.
  intros Hu1 Hu2 Hpw Hp Hdb Hi. unfold mysql_params.
  replace (user +:+ String colon (password +:+ String at_sign
             (host +:+ String colon (p +:+ String slash db))))
    with ((user +:+ String colon password) +:+ String at_sign
             (host +:+ String colon (p +:+ String slash db)))
    by (symmetry; exact (string_app_assoc' user (String colon password) _)).
  rewrite split1_app.
  2:{ rewrite py_contains_char_app, py_contains_cons, Hu2, Hpw. reflexivity. }
  rewrite split1_app by done.
  replace (host +:+ String colon (p +:+ String slash db))
    with ((host +:+ String colon p) +:+ String slash db)
    by (symmetry; exact (string_app_assoc' host (String colon p) _)).
  rewrite rsplit1_app by done.
  unfold host_port. rewrite rsplit1_app by done. by rewrite Hi.
Qed.

(** MySQL and Redis probes: a bare host connects as [root] with an empty
    password to port 3306, and [redis://host] to port 6379. *)
Theorem connection_default_ports (env : Env) (m : Monitor) (host : string) :
  py_contains (String colon EmptyString) host = false ->
  py_contains (String at_sign EmptyString) host = false ->
  w_has_redis env = true ->
  m_target m = "redis://" +:+ host ->
  mysql_params env host = Ok ("root", "", "", host, 3306) /\
  (check_redis env m).1 = [ActRedis host 6379].
Proof.
  intros Hc Ha Hr Ht. split.
  - unfold mysql_params, host_port. by rewrite split1_none, rsplit1_none.
  - unfold check_redis. rewrite Hr, Ht, py_startswith_app.
    rewrite (substring_app "redis://") by (rewrite string_length_app; lia).
    unfold host_port. rewrite rsplit1_none by done. cbn.
    by destruct (w_redis env host 6379).
Qed.

(** HTTP probe: only GET, POST and HEAD are ever sent, only POST carries
    the body, and the method column is compared without regard to case. *)
Theorem http_request_method (m1 m2 : Monitor) (hs : list (string * string)) :
  (req_method (http_request m1 hs) = "GET" \/ req_method (http_request m1 hs) = "POST" \/
   req_method (http_request m1 hs) = "HEAD") /\
  (req_body (http_request m1 hs) <> "" -> req_method (http_request m1 hs) = "POST") /\
  (py_upper (m_method m1) = py_upper (m_method m2) -> m_target m1 = m_target m2 ->
   m_body m1 = m_body m2 -> m_timeout m1 = m_timeout m2 ->
   http_request m1 hs = http_request m2 hs).
Proof.
  unfold http_request. split; [|split].
  - destruct (String.eqb _ "POST"); [|destruct (String.eqb _ "HEAD")]; cbn; auto.
  - destruct (String.eqb _ "POST"); [|destruct (String.eqb _ "HEAD")]; cbn; done.
  - intros -> -> -> ->. reflexivity.
Qed.

(** HTTP probe: the configured headers are all sent, in order, and the
    request always carries a User-Agent; a configured one is kept and
    nothing is added. *)
Theorem check_http_headers (env : Env) (m : Monitor) (kv : list (string * string)) :
  m_headers m = HDict kv ->
  exists req, (check_http env m).1 = [ActHttp req] /\ req_url req = m_target m /\
    (exists rest, req_headers req = kv ++ rest) /\
    (exists v, ("User-Agent", v) ∈ req_headers req) /\
    ((exists v, ("User-Agent", v) ∈ kv) -> req_headers req = kv).
Proof.
  intros Hh. unfold check_http. rewrite Hh. cbn.
  set (hs := setdefault "User-Agent" "SiteMonitor/1.0" kv).
  assert (Hhs : (exists rest, hs = kv ++ rest) /\ (exists v, ("User-Agent", v) ∈ hs) /\
                ((exists v, ("User-Agent", v) ∈ kv) -> hs = kv)).
  { unfold hs, setdefault. destruct (list_find _ kv) as [[i [k v]]|] eqn:E.
    - apply list_find_Some in E as (Hi & Hk & _). simpl in Hk. subst k.
      split; [exists []; by rewrite app_nil_r|]. split; [|done].
      exists v. by eapply list_elem_of_lookup_2.
    - split; [by eexists|]. split.
      + exists "SiteMonitor/1.0". apply elem_of_app. right. by left.
      + intros [v Hv]. apply list_find_None in E.
        rewrite Forall_forall in E. by specialize (E _ Hv). }
  exists (http_request m hs).
  assert (Hreq : req_url (http_request m hs) = m_target m /\ req_headers (http_request m hs) = hs).
  { unfold http_request. destruct (String.eqb _ "POST"); [|destruct (String.eqb _ "HEAD")]; done. }
  destruct Hreq as [Hu Hr]. rewrite Hu, Hr. split; [|done].
  destruct (w_http env (http_request m hs)) as [resp|e]; cbn; [reflexivity|].
  by destruct (exn_kind e).
Qed.

(** HTTP probe: when the request fails the result has status 0 and HTTP
    code 0; the response time is the timeout (in ms) after a timeout and 0
    after any other error. *)
Theorem check_http_request_failure (env : Env) (m : Monitor) (e : PyExn) :
  (forall k, m_headers m <> HNonDict k) ->
  (forall r, w_http env r = Raise e) ->
  exists req r, check_http env m = ([ActHttp req], Ok r) /\
    status r = 0 /\ status_code r = 0 /\
    response_time r = match exn_kind e with ReqTimeout => m_timeout m * 1000 | _ => 0 end.
Proof.
  intros Hh Hw. unfold check_http.
  destruct (m_headers m) as [kv| |k]; [| |exfalso; exact (Hh k eq_refl)]; cbn; rewrite Hw; cbn;
    destruct (exn_kind e); cbn; do 2 eexists; (split; [reflexivity|]); cbn; auto.
Qed.

(** HTTP and keyword probes: a headers column holding JSON that is not an
    object makes [headers.setdefault] raise before any request; [check]
    turns this into status 0, with the AttributeError's text naming the
    value's Python type, and nothing is sent. *)
Theorem check_nondict_headers (env : Env) (m : Monitor) (k : JsonKind) :
  m_headers m = HNonDict k ->
  (select_checker (m_type m) = CkHttp \/ select_checker (m_type m) = CkKeyword) ->
  check env m =
    ([], Ok (mkResult 0 0 0 ("'" +:+ json_type_name k +:+ "' object has no attribute 'setdefault'"))).
Proof.
  intros Hh Hs. unfold check.
  destruct Hs as [-> | ->]; cbn [run_checker].
  - unfold check_http. rewrite Hh. reflexivity.
  - unfold check_keyword, check_http. rewrite Hh. reflexivity.
Qed.

(* ------------------------------------------------------------------ *)
(** ** The scheduled tick, the scheduler and the push endpoint *)

Lemma logs_of_transition (o : Obs) : logs_of (transition_effects o) = [].
Proof. destruct o as [[m t] r]. unfold transition_effects. by case_match. Qed.

Lemma logs_of_app (a b : list Effect) : logs_of (a ++ b) = logs_of a ++ logs_of b.
Proof. unfold logs_of. apply omap_app. Qed.

Lemma logs_of_expected (ls0 : LastStatus) (hist obs : list Obs) :
  map log_type (logs_of (expected_effects ls0 hist obs)) = map (fun o : Obs => o.1.2) obs.
Proof.
  revert hist. induction obs as [|o obs IH]; intros hist; [done|].
  simpl. rewrite logs_of_app.
  replace (logs_of (match last_recorded ls0 hist (obs_key o) with
                    | Some prev => if bool_decide (prev ≠ obs_status o) then transition_effects o else []
                    | None => [] end)) with (@nil LogRow)
    by (repeat case_match; by rewrite ?logs_of_transition).
  destruct o as [[m t] r]. simpl. f_equal. apply IH.
Qed.

Lemma types_obs_types (probe : nat -> Monitor -> CheckResult) (m : Monitor) (ts : list string) :
  forall i, map (fun o : Obs => o.1.2) (types_obs probe m i ts) =
            List.filter (fun t => negb (String.eqb t "push")) ts.
Proof.
  induction ts as [|t ts IH]; intros i; [done|]. simpl.
  destruct (String.eqb t "push"); simpl; [apply IH|]. f_equal. apply IH.
Qed.

(** Scheduled tick: one [logs] row is written per entry of the [types]
    list that is not 'push', in list order; a disabled monitor writes
    nothing. *)
Theorem check_monitor_logs (probe : nat -> Monitor -> CheckResult) (m : Monitor) (ls : LastStatus) :
  map log_type (logs_of (check_monitor probe m ls).2) =
  if m_enabled m then List.filter (fun t => negb (String.eqb t "push")) (parse_types m) else [].
Proof.
  destruct (check_monitor_spec probe m ls ls [] (fun k => eq_refl)) as [Heff _].
  rewrite Heff, logs_of_expected. unfold tick_obs.
  destruct (m_enabled m); [apply types_obs_types|done].
Qed.

Lemma check_types_probe_ext (probe probe' : nat -> Monitor -> CheckResult) (m : Monitor) :
  (forall i m', m_type m' <> "push" -> probe i m' = probe' i m') ->
  forall ts i ls, check_types probe m ls i ts = check_types probe' m ls i ts.
Proof.
  intros Hp ts. induction ts as [|t ts IH]; intros i ls; [done|]. simpl.
  destruct (String.eqb t "push") eqn:Et; [apply IH|].
  rewrite Hp by (simpl; by apply String.eqb_neq).
  by rewrite IH.
Qed.

(** Scheduled tick: the push checker is never run; the tick depends on the
    probe results of the other types only. *)
Theorem check_monitor_skips_push (probe probe' : nat -> Monitor -> CheckResult)
    (m : Monitor) (ls : LastStatus) :
  (forall i m', m_type m' <> "push" -> probe i m' = probe' i m') ->
  check_monitor probe m ls = check_monitor probe' m ls.
Proof.
  intros Hp. unfold check_monitor. destruct (m_enabled m); [|done]. simpl.
  by apply check_types_probe_ext.
Qed.

Lemma check_types_frame (probe : nat -> Monitor -> CheckResult) (m : Monitor) (ts : list string) :
  forall i ls,
  (forall id, id <> m_id m -> (check_types probe m ls i ts).1 !! id = ls !! id) /\
  Forall (fun e => effect_monitor e = Some (m_id m)) (check_types probe m ls i ts).2.
Proof.
  induction ts as [|t ts IH]; intros i ls; simpl; [done|].
  destruct (String.eqb t "push"); [apply IH|].
  set (ls' := <[m_id m := _]> ls).
  destruct (IH (S i) ls') as [Hf He].
  destruct (check_types probe m ls' (S i) ts) as [ls'' effs]. simpl in *. split.
  - intros id Hid. rewrite Hf by done. unfold ls'. by rewrite lookup_insert_ne.
  - constructor; [done|]. apply Forall_app. split; [|done].
    repeat case_match; unfold transition_effects; repeat constructor; simpl; by case_match.
Qed.

(** Scheduled tick: a tick changes the tracker only under its own monitor's
    id, and every row, event and notification it writes names that
    monitor. *)
Theorem check_monitor_frame (probe : nat -> Monitor -> CheckResult) (m : Monitor) (ls : LastStatus) :
  (forall id, id <> m_id m -> (check_monitor probe m ls).1 !! id = ls !! id) /\
  Forall (fun e => effect_monitor e = Some (m_id m)) (check_monitor probe m ls).2.
Proof.
  unfold check_monitor. destruct (m_enabled m); simpl; [|done].
  destruct (check_types_frame probe m (parse_types m) 0
              (match ls !! m_id m with Some _ => ls | None => <[m_id m:=∅]> ls end)) as [Hf He].
  split; [|done]. intros id Hid. rewrite Hf by done.
  destruct (ls !! m_id m); [done|]. by rewrite lookup_insert_ne.
Qed.

Lemma expected_effects_fresh (ls0 : LastStatus) (obs : list Obs) :
  forall hist,
  NoDup (map obs_key obs) ->
  (forall o, o ∈ obs -> last_recorded ls0 hist (obs_key o) = None) ->
  expected_effects ls0 hist obs = map log_effect obs.
Proof.
  induction obs as [|o obs IH]; intros hist Hnd Hnone; [done|].
  simpl. inversion Hnd as [|? ? Hnotin Hnd']; subst.
  rewrite Hnone by (by left). simpl. f_equal. apply IH; [done|].
  intros o' Ho'. simpl. case_bool_decide as Hk.
  - exfalso. apply Hnotin. rewrite Hk. by apply list_elem_of_fmap_2.
  - apply Hnone. by right.
Qed.

Lemma NoDup_List_filter {A} (f : A -> bool) (l : list A) : NoDup l -> NoDup (List.filter f l).
Proof.
  induction l as [|x l IH]; intros Hnd; [constructor|]. inversion Hnd; subst. simpl.
  destruct (f x); [|by apply IH]. constructor; [|by apply IH].
  intros Hx. apply list_elem_of_In, filter_In in Hx as [Hx _]. by apply list_elem_of_In in Hx.
Qed.

Lemma types_obs_keys (probe : nat -> Monitor -> CheckResult) (m : Monitor) (ts : list string) i :
  map obs_key (types_obs probe m i ts) =
  map (fun t => (m_id m, t)) (List.filter (fun t => negb (String.eqb t "push")) ts).
Proof.
  revert i. induction ts as [|t ts IH]; intros i; [done|]. simpl.
  destruct (String.eqb t "push"); simpl; [apply IH|]. f_equal. apply IH.
Qed.

(** Scheduled tick: the first tick of a monitor the tracker has not seen
    only writes log rows: no event and no notification, as long as no
    type is listed twice. *)
Theorem first_tick_no_alert (probe : nat -> Monitor -> CheckResult) (m : Monitor) (ls : LastStatus) :
  ls !! m_id m = None ->
  NoDup (parse_types m) ->
  (check_monitor probe m ls).2 = map log_effect (tick_obs probe m).
Proof.
  intros Hnone Hnd.
  destruct (check_monitor_spec probe m ls ls [] (fun k => eq_refl)) as [Heff _].
  rewrite Heff. unfold tick_obs. destruct (m_enabled m); [|done].
  apply expected_effects_fresh.
  - rewrite types_obs_keys. apply NoDup_fmap; [by intros x y [=]|].
    by apply NoDup_List_filter.
  - intros o Ho. simpl. unfold lookup2.
    assert (Hk : (obs_key o).1 = m_id m).
    { assert (obs_key o ∈ map obs_key (types_obs probe m 0 (parse_types m)))
        by by apply list_elem_of_fmap_2.
      rewrite types_obs_keys in H. apply list_elem_of_fmap in H as (t & -> & _). done. }
    by rewrite Hk, Hnone.
Qed.

Lemma job_id_inj (a b : Z) : job_id a = job_id b -> a = b.
Proof. unfold job_id. intros H. simpl in H. simplify_eq. by apply (inj pretty). Qed.

(** [schedule_monitor]: afterwards the monitor has a job exactly when it
    is enabled and has a non-push type, and that job carries the monitor
    given; other monitors' jobs are untouched and every job stays under
    its monitor's id. *)
Theorem schedule_monitor_jobs (m : Monitor) (st : AppState) :
  jobs_keyed st ->
  jobs_keyed (schedule_monitor m st) /\
  jobs (schedule_monitor m st) !! job_id (m_id m) =
    (if m_enabled m && has_active_types m then Some m else None) /\
  (forall id, id <> m_id m -> jobs (schedule_monitor m st) !! job_id id = jobs st !! job_id id).
Proof.
  intros Hk. unfold schedule_monitor. cbn [jobs]. split; [|split].
  - intros j m' Hj. simpl in Hj.
    destruct (m_enabled m && has_active_types m).
    + apply lookup_insert_Some in Hj as [[<- <-]|[_ Hj]]; [done|].
      apply lookup_delete_Some in Hj as [_ Hj]. by apply Hk.
    + apply lookup_delete_Some in Hj as [_ Hj]. by apply Hk.
  - destruct (m_enabled m && has_active_types m).
    + by rewrite lookup_insert_eq.
    + by rewrite lookup_delete_eq.
  - intros id Hid. assert (Hj : job_id (m_id m) <> job_id id) by (intros H; by apply job_id_inj in H).
    destruct (m_enabled m && has_active_types m).
    + rewrite lookup_insert_ne by done. by rewrite lookup_delete_ne.
    + by rewrite lookup_delete_ne.
Qed.

Lemma foldl_results_lookup (obs : list Obs) :
  forall (acc : gmap string CheckResult) t r,
  NoDup (map (fun o : Obs => o.1.2) obs) ->
  (foldl (fun acc (o : Obs) => <[o.1.2 := o.2]> acc) acc obs !! t = Some r <->
   (exists o, o ∈ obs /\ o.1.2 = t /\ o.2 = r) \/
   ((t ∉ map (fun o : Obs => o.1.2) obs) /\ acc !! t = Some r)).
Proof.
  induction obs as [|o obs IH]; intros acc t r Hnd; simpl.
  - split; [intros H; right; split; [by inversion 1|done]|].
    intros [(o & Ho & _)|[_ H]]; [by inversion Ho|done].
  - inversion Hnd as [|? ? Hnotin Hnd']; subst. rewrite IH by done. split.
    + intros [(o' & Ho' & Ht & Hr)|[Hnot Hacc]].
      * left. exists o'. split; [by right|done].
      * destruct (decide (o.1.2 = t)) as [<-|Hne].
        -- rewrite lookup_insert_eq in Hacc. injection Hacc as <-. left. exists o. split; [by left|done].
        -- rewrite lookup_insert_ne in Hacc by done. right. split; [|done].
           intros Hin. apply elem_of_cons in Hin as [->|Hin]; [done|by apply Hnot].
    + intros [(o' & Ho' & Ht & Hr)|[Hnot Hacc]].
      * apply elem_of_cons in Ho' as [->|Ho'].
        -- right. split.
           ++ intros Hin. apply Hnotin. by rewrite Ht.
           ++ subst. by rewrite lookup_insert_eq.
        -- left. by exists o'.
      * right. split.
        -- intros Hin. apply Hnot. by right.
        -- rewrite lookup_insert_ne; [done|]. intros Heq. apply Hnot. rewrite <- Heq. by left.
Qed.

(** [api_check_now]: with no type listed twice, the reply holds one result
    per non-push type, and [overall_status] is 0 exactly when one of them
    has status 0. *)
Theorem check_now_overall_status (monitor_id : Z) (probe : nat -> Monitor -> CheckResult)
    (st : AppState) (m : Monitor) :
  monitors st !! monitor_id = Some m ->
  NoDup (parse_types m) ->
  exists overall results,
    (api_check_now monitor_id probe st).2 = Some (overall, results) /\
    (forall t, is_Some (results !! t) <-> t ∈ parse_types m /\ t <> "push") /\
    (overall = 0 <-> exists t r, results !! t = Some r /\ status r = 0) /\
    (overall = 0 \/ overall = 1).
Proof.
  intros Hm Hnd. unfold api_check_now. rewrite Hm. simpl.
  set (obs := types_obs probe m 0 (parse_types m)).
  assert (Hkeys : map (fun o : Obs => o.1.2) obs = List.filter (fun t => negb (String.eqb t "push")) (parse_types m))
    by apply types_obs_types.
  assert (Hnd' : NoDup (map (fun o : Obs => o.1.2) obs))
    by (rewrite Hkeys; by apply NoDup_List_filter).
  set (results := foldl (fun acc (o : Obs) => <[o.1.2 := o.2]> acc) ∅ obs).
  assert (Hres : forall t r, results !! t = Some r <-> exists o, o ∈ obs /\ o.1.2 = t /\ o.2 = r).
  { intros t r. unfold results. rewrite foldl_results_lookup by done.
    split; [intros [H|[_ H]]; [done|by rewrite lookup_empty in H]|by left]. }
  eexists _, results. split; [reflexivity|]. split; [|split].
  - intros t. split.
    + intros [r Hr]. apply Hres in Hr as (o & Ho & Ht & _).
      assert (Hin : t ∈ List.filter (fun t => negb (String.eqb t "push")) (parse_types m)).
      { rewrite <- Hkeys, <- Ht. apply list_elem_of_In, (in_map (fun o : Obs => o.1.2)), list_elem_of_In, Ho. }
      apply list_elem_of_In, filter_In in Hin as [Hin Hp].
      split; [by apply list_elem_of_In|]. intros ->. done.
    + intros [Hin Hp].
      assert (Hin' : t ∈ map (fun o : Obs => o.1.2) obs).
      { rewrite Hkeys. apply list_elem_of_In, filter_In. split; [by apply list_elem_of_In|].
        apply String.eqb_neq in Hp. by rewrite Hp. }
      apply list_elem_of_fmap in Hin' as (o & -> & Ho). exists o.2. apply Hres. by exists o.
  - destruct (existsb (fun o : Obs => status o.2 =? 0) obs) eqn:Ex; split; intros H; try done.
    + apply existsb_exists in Ex as (o & Ho & Hs). apply Z.eqb_eq in Hs.
      exists o.1.2, o.2. split; [|done]. apply Hres. exists o. split; [by apply list_elem_of_In|done].
    + exfalso. destruct H as (t & r & Hr & Hs). apply Hres in Hr as (o & Ho & _ & <-).
      assert (Hf : existsb (fun o : Obs => status o.2 =? 0) obs = true).
      { apply existsb_exists. exists o. split; [by apply list_elem_of_In|]. by apply Z.eqb_eq. }
      congruence.
  - case_match; auto.
Qed.

Lemma newest_row_foldl (rows : list Heartbeat) (acc : option Heartbeat) (b : Heartbeat) :
  foldl (fun acc h => match acc with
                      | None => Some h
                      | Some b => if hb_created_at b <? hb_created_at h then Some h else Some b
                      end) acc rows = Some b ->
  (acc = Some b \/ b ∈ rows) /\
  (forall a, acc = Some a -> hb_created_at a <= hb_created_at b) /\
  (forall h, h ∈ rows -> hb_created_at h <= hb_created_at b).
Proof.
  revert acc. induction rows as [|h rows IH]; intros acc Hf; simpl in Hf.
  - split; [by left|]. split; [intros a ->; injection Hf as ->; lia|]. intros h Hh. inversion Hh.
  - destruct (IH _ Hf) as (Hin & Hacc & Hall).
    set (acc' := match acc with
                 | None => Some h
                 | Some b0 => if hb_created_at b0 <? hb_created_at h then Some h else Some b0
                 end) in *.
    assert (Hh : hb_created_at h <= hb_created_at b /\
                 forall a, acc = Some a -> hb_created_at a <= hb_created_at b).
    { destruct acc as [a|]; simpl in acc'.
      - destruct (Z.ltb_spec (hb_created_at a) (hb_created_at h)).
        + specialize (Hacc h eq_refl). split; [lia|]. intros a' [= <-]. lia.
        + specialize (Hacc a eq_refl). split; [lia|]. by intros a' [= <-].
      - split; [exact (Hacc h eq_refl)|done]. }
    destruct Hh as [Hh Ha]. split; [|split; [exact Ha|]].
    + destruct Hin as [Hin|Hin]; [|right; by right].
      destruct acc as [a|]; simpl in acc'.
      * destruct (hb_created_at a <? hb_created_at h); subst acc'; injection Hin as ->;
          [right; by left|by left].
      * subst acc'. injection Hin as ->. right. by left.
    + intros h' Hh'. apply elem_of_cons in Hh' as [->|Hh']; [exact Hh|exact (Hall h' Hh')].
Qed.

Lemma newest_row_app (rows : list Heartbeat) (h : Heartbeat) :
  newest_row (rows ++ [h]) =
  match newest_row rows with
  | None => Some h
  | Some b => if hb_created_at b <? hb_created_at h then Some h else Some b
  end.
Proof. unfold newest_row. by rewrite foldl_app. Qed.

Lemma newest_row_Some (rows : list Heartbeat) (b : Heartbeat) :
  newest_row rows = Some b ->
  b ∈ rows /\ forall h, h ∈ rows -> hb_created_at h <= hb_created_at b.
Proof.
  intros Hb. destruct (newest_row_foldl rows None b Hb) as ([Hin|Hin] & _ & Hall); [done|].
  by split.
Qed.

Lemma newest_row_None (rows : list Heartbeat) (h : Heartbeat) :
  h ∈ rows -> exists b, newest_row rows = Some b.
Proof.
  intros Hh. destruct rows as [|x rows]; [inversion Hh|].
  unfold newest_row. simpl. clear Hh. revert x.
  induction rows as [|y rows IH]; intros acc; simpl; [by eexists|].
  destruct (_ <? _); apply IH.
Qed.

Lemma heartbeat_rows_elem (hs : list (Z * Heartbeat)) (id : Z) (h : Heartbeat) :
  h ∈ snd <$> filter (fun p => p.1 = id) hs <-> (id, h) ∈ hs.
Proof.
  rewrite list_elem_of_fmap. split.
  - intros ([i h'] & -> & Hp). apply list_elem_of_filter in Hp as [Hi Hp]. simpl in *. by subst.
  - intros Hin. exists (id, h). split; [done|]. by apply list_elem_of_filter.
Qed.

(** [api_push_heartbeat]: a push either answers 404 and changes nothing,
    or it matched a push monitor (enabled or not) by id or by target and
    appends one heartbeats row for it, stamped with the current second.
    That row becomes the monitor's last heartbeat when every earlier row
    of the monitor is older; when an earlier row carries the same second
    (two pushes within one second), the earlier row stays the last
    heartbeat.  The last heartbeat of every other monitor stays the
    same. *)
Theorem push_records_heartbeat (py_int : string -> Exc Z) (token : string) (req : PushRequest)
    (now : Z) (now_text : string) (st st' : AppState) (code : Z) :
  api_push_heartbeat py_int token req now now_text st = Ok (st', code) ->
  (code = 404 /\ st' = st) \/
  (code = 200 /\ exists k m s msg,
     monitors st !! k = Some m /\ "push" ∈ parse_types m /\
     (pretty (m_id m) = token \/ m_target m = token) /\
     push_payload py_int req = Ok (s, msg) /\
     heartbeats st' = heartbeats st ++ [(m_id m, mkHeartbeat s msg now now_text)] /\
     ((forall h, (m_id m, h) ∈ heartbeats st -> hb_created_at h < now) ->
        last_heartbeat st' (m_id m) = Some (mkHeartbeat s msg now now_text)) /\
     ((forall h, (m_id m, h) ∈ heartbeats st -> hb_created_at h <= now) ->
      (exists h, (m_id m, h) ∈ heartbeats st /\ hb_created_at h = now) ->
        last_heartbeat st' (m_id m) = last_heartbeat st (m_id m)) /\
     (forall id, id <> m_id m -> last_heartbeat st' id = last_heartbeat st id)).
Proof.
  unfold api_push_heartbeat.
  destruct (list_find _ _) as [[i m]|] eqn:Ef; [|intros [= <- <-]; by left].
  destruct (push_payload py_int req) as [[s msg]|e] eqn:Ep; [|done].
  intros [= <- <-]. right. split; [done|].
  apply list_find_Some in Ef as (Hi & Ht & _).
  apply andb_true_iff in Ht as [Hp Htok]. apply bool_decide_eq_true in Hp.
  apply list_elem_of_lookup_2 in Hi.
  apply list_elem_of_fmap in Hi as ([k m'] & Hm & Hkm). simpl in Hm. subst m'.
  apply elem_of_map_to_list in Hkm.
  exists k, m, s, msg. split; [done|]. split; [done|]. split.
  { apply orb_true_iff in Htok as [H|H]; apply String.eqb_eq in H; auto. }
  split; [done|]. split; [done|]. unfold last_heartbeat. simpl.
  rewrite filter_app, filter_cons_True by done. simpl.
  rewrite fmap_app. simpl. rewrite newest_row_app. split; [|split].
  - intros Hold. destruct (newest_row _) as [b|] eqn:Hb; [|done].
    apply newest_row_Some in Hb as [Hb _]. apply heartbeat_rows_elem in Hb.
    specialize (Hold b Hb). simpl. by destruct (Z.ltb_spec (hb_created_at b) now); [|lia].
  - intros Hle [h [Hh Hnow]].
    apply (heartbeat_rows_elem _ (m_id m)) in Hh as Hh'.
    destruct (newest_row_None _ h Hh') as [b Hb]. rewrite Hb.
    apply newest_row_Some in Hb as [Hbin Hmax].
    specialize (Hmax h Hh'). apply heartbeat_rows_elem in Hbin. specialize (Hle b Hbin).
    simpl. by destruct (Z.ltb_spec (hb_created_at b) now); [lia|].
  - intros id Hid. rewrite filter_app, filter_cons_False by done.
    by rewrite app_nil_r.
Qed.

(** [api_push_heartbeat]: only monitors with 'push' among their types are
    matched; when no such monitor has the token as id or target, the push
    answers 404 and changes nothing, whatever the request carries. *)
Theorem push_unknown_token (py_int : string -> Exc Z) (token : string) (req : PushRequest)
    (now : Z) (now_text : string) (st : AppState) :
  (forall k m, monitors st !! k = Some m -> "push" ∈ parse_types m ->
               pretty (m_id m) <> token /\ m_target m <> token) ->
  api_push_heartbeat py_int token req now now_text st = Ok (st, 404).
Proof.
  intros Hno. unfold api_push_heartbeat.
  destruct (list_find _ _) as [[i m]|] eqn:Ef; [|done]. exfalso.
  apply list_find_Some in Ef as (Hi & Ht & _).
  apply andb_true_iff in Ht as [Hp Htok]. apply bool_decide_eq_true in Hp.
  apply list_elem_of_lookup_2 in Hi.
  apply list_elem_of_fmap in Hi as ([k m'] & Hm & Hkm). simpl in Hm. subst m'.
  apply elem_of_map_to_list in Hkm.
  destruct (Hno k m Hkm Hp) as [H1 H2].
  apply orb_true_iff in Htok as [H|H]; apply String.eqb_eq in H; auto.
Qed.

(* ------------------------------------------------------------------ *)
(** ** Authentication *)

Lemma replace_go_absent (old new s : string) :
  py_contains old s = false -> replace_go old new 0 s = s.
Proof.
  induction s as [|c s IH]; intros H; [done|].
  simpl in H. apply orb_false_iff in H as [Hp Hc].
  simpl. rewrite Hp. f_equal. by apply IH.
Qed.

Lemma replace_go_skip (old new o s : string) :
  replace_go old new (String.length o) (o +:+ s) = replace_go old new 0 s.
Proof. induction o as [|c o IH]; [done|]. exact IH. Qed.

Lemma replace_go_prefix (c : Ascii.ascii) (o new s : string) :
  replace_go (String c o) new 0 (String c o +:+ s) = new +:+ replace_go (String c o) new 0 s.
Proof.
  change (String c o +:+ s) with (String c (o +:+ s)).
  cbn [replace_go].
  replace (String.prefix (String c o) (String c (o +:+ s))) with true
    by (symmetry; exact (py_startswith_app (String c o) s)).
  simpl (String.length (String c o) - 1)%nat. rewrite Nat.sub_0_r.
  by rewrite replace_go_skip.
Qed.

(** [check_auth]: the token is accepted with or without the "Bearer "
    prefix, exactly when it is in [admin_tokens]. *)
Theorem check_auth_bearer (st : AuthState) (tok : string) :
  py_contains "Bearer " tok = false ->
  check_auth (Some ("Bearer " +:+ tok)) st = bool_decide (tok ∈ admin_tokens st) /\
  check_auth (Some tok) st = bool_decide (tok ∈ admin_tokens st).
Proof.
  intros Ht. unfold check_auth, request_token, py_replace. simpl default.
  rewrite replace_go_prefix. simpl (EmptyString +:+ _).
  by rewrite !replace_go_absent.
Qed.

(** [api_auth_setup]: the admin is created only when none exists and the
    password has at least 6 characters; any other call changes nothing.
    The username defaults to 'admin' and the sessions are kept. *)
Theorem auth_setup_once (hash_password : string -> string) (body : AuthBody)
    (st st' : AuthState) (code : Z) :
  api_auth_setup hash_password body st = (st', code) ->
  (code = 200 /\ auth_admin st = None /\ (6 <= py_len (default "" (ab_password body)))%nat /\
   st' = mkAuth (Some (mkAdmin (default "admin" (ab_username body))
                               (hash_password (default "" (ab_password body)))))
                (admin_tokens st)) \/
  (code = 400 /\ st' = st).
Proof.
  unfold api_auth_setup. destruct (auth_admin st) eqn:Ea; [intros [= <- <-]; by right|].
  destruct (Nat.ltb_spec (py_len (default "" (ab_password body))) 6) as [Hl|Hl];
    intros [= <- <-]; [by right|]. left. repeat split; auto.
Qed.

(** [api_auth_login]: a token is issued, and accepted by [check_auth]
    afterwards, only for the admin's username and password; a failed login
    changes nothing. *)
Theorem auth_login (hash_password : string -> string) (tok : string) (body : AuthBody)
    (st st' : AuthState) (code : Z) (reply : option string) :
  api_auth_login hash_password tok body st = (st', code, reply) ->
  (code = 200 /\ reply = Some tok /\
   verify_admin (default "" (ab_username body)) (hash_password (default "" (ab_password body))) st = true /\
   auth_admin st' = auth_admin st /\
   (forall t, t ∈ admin_tokens st' <-> t = tok \/ t ∈ admin_tokens st) /\
   (py_contains "Bearer " tok = false -> check_auth (Some ("Bearer " +:+ tok)) st' = true)) \/
  (code = 401 /\ reply = None /\ st' = st).
Proof.
  unfold api_auth_login. destruct (auth_admin st) eqn:Ea; [|intros [= <- <- <-]; by right].
  destruct (verify_admin _ _ st) eqn:Ev; intros [= <- <- <-]; [|by right].
  left. repeat split; auto.
  - intros Ht. by apply elem_of_union in Ht as [Ht%elem_of_singleton|Ht]; [left|right].
  - intros [->|Ht]; apply elem_of_union; [left; by apply elem_of_singleton|by right].
  - intros Hb. unfold check_auth, request_token, py_replace. simpl default.
    rewrite replace_go_prefix. simpl (EmptyString +:+ _). rewrite replace_go_absent by done.
    apply bool_decide_eq_true. apply elem_of_union. left. by apply elem_of_singleton.
Qed.

(** [api_auth_logout]: exactly the token presented is revoked, so the same
    header is refused afterwards; other sessions and the admin row stay. *)
Theorem auth_logout_revokes (authorization : option string) (st : AuthState) :
  auth_admin (api_auth_logout authorization st).1 = auth_admin st /\
  (forall t, t ∈ admin_tokens (api_auth_logout authorization st).1 <->
             t ∈ admin_tokens st /\ t <> request_token authorization) /\
  check_auth authorization (api_auth_logout authorization st).1 = false.
Proof.
  unfold api_auth_logout. simpl. split; [done|]. split.
  - intros t. rewrite elem_of_difference, elem_of_singleton. done.
  - unfold check_auth. simpl. apply bool_decide_eq_false.
    rewrite elem_of_difference, elem_of_singleton. tauto.
Qed.

(** [api_auth_password]: the password changes only for an authorized
    request with the right old password and a new one of at least 6
    characters; the username is kept and no session is revoked. *)
Theorem auth_password_change (hash_password : string -> string) (authorization : option string)
    (body : AuthBody) (st st' : AuthState) (code : Z) :
  api_auth_password hash_password authorization body st = Ok (st', code) ->
  admin_tokens st' = admin_tokens st /\
  ((code = 200 /\ check_auth authorization st = true /\
    exists a, auth_admin st = Some a /\
      adm_password a = hash_password (default "" (ab_old_password body)) /\
      (6 <= py_len (default "" (ab_new_password body)))%nat /\
      auth_admin st' = Some (mkAdmin (adm_username a)
                                     (hash_password (default "" (ab_new_password body))))) \/
   ((code = 401 \/ code = 400) /\ st' = st)).
Proof.
  unfold api_auth_password.
  destruct (check_auth authorization st) eqn:Ec; simpl; [|intros [= <- <-]; split; [done|right; auto]].
  destruct (auth_admin st) as [a|] eqn:Ea; [|done].
  unfold verify_admin at 1. rewrite Ea. rewrite String.eqb_refl. simpl.
  destruct (String.eqb_spec (adm_password a) (hash_password (default "" (ab_old_password body)))) as [Hp|Hp];
    simpl; [|intros [= <- <-]; split; [done|right; auto]].
  destruct (Nat.ltb_spec (py_len (default "" (ab_new_password body))) 6) as [Hl|Hl];
    intros [= <- <-]; [split; [done|right; auto]|].
  split; [done|]. left. split; [done|]. split; [done|]. exists a. auto.
Qed.

(* ------------------------------------------------------------------ *)
(** ** Notifications *)

Lemma send_request_ok (env : NEnv) (a : NAction) (ok : Z -> bool) :
  exists b, send_request env a ok = ([a], Ok b) /\
            (forall code, n_request env a = Ok code -> b = ok code).
Proof.
  unfold send_request, nm_try, request, nm_bind, nm_ret.
  destruct (n_request env a) as [code|e]; simpl.
  - exists (ok code). split; [done|]. by intros ? [= ->].
  - exists false. split; [done|]. done.
Qed.

(** [Notifier.send] never raises: every failure of a sender is turned
    into [False]; a channel of unknown type gives [False] without any
    network call. *)
Theorem notifier_send_never_raises (env : NEnv) (ch : Channel) (m : NotifyMonitor)
    (status : Z) (message : string) :
  (exists b, (notifier_send env ch m status message).2 = Ok b) /\
  (handlers env (ch_type ch) = None -> notifier_send env ch m status message = ([], Ok false)).
Proof.
  unfold notifier_send. split; [|by intros ->].
  destruct (handlers env (ch_type ch)) as [h|]; [|by eexists].
  unfold nm_try. destruct (nm_bind _ _) as [t [b|e]]; [by eexists|].
  simpl. by eexists.
Qed.

(** Webhook channels: [send_webhook] reads [monitor['type']] outside its
    [try], and the rows of the monitors table have no [type] key, so for
    the monitors [check_monitor] passes the webhook is never called and
    the send reports [False]. *)
Theorem webhook_needs_type (env : NEnv) (ch : Channel) (m : NotifyMonitor)
    (status : Z) (message : string) :
  ch_type ch = "webhook" ->
  nm_type m = None ->
  notifier_send env ch m status message = ([], Ok false).
Proof.
  intros Ht Hm. unfold notifier_send. rewrite Ht. simpl.
  destruct (ch_config ch) as [c|]; simpl; [|done].
  unfold send_webhook, nm_lift, nm_bind. rewrite Hm.
  by destruct (cfg_key "url" c).
Qed.

(** Senders: a webhook counts any status code below 400 as delivered, the
    WeChat, Telegram, Bark, PushPlus and ServerChan senders only 200. *)
Theorem notifier_success_rule (env : NEnv) (ch : Channel) (m : NotifyMonitor)
    (status : Z) (message : string) (a : NAction) (code : Z) (b : bool) :
  notifier_send env ch m status message = ([a], Ok b) ->
  n_request env a = Ok code ->
  (ch_type ch = "webhook" -> b = (code <? 400)) /\
  (ch_type ch ∈ ["wechat"; "telegram"; "bark"; "pushplus"; "serverchan"] -> b = (code =? 200)).
Proof.
  intros Hs Hr. unfold notifier_send in Hs.
  assert (Hgen : forall (pre : NM JVal) (ok : Z -> bool) k,
             nm_try (config <-- nm_lift (match ch_config ch with
                                         | Some c => Ok c
                                         | None => Raise (mkExn ValueError "Expecting value") end);
                     k config) (fun _ => nm_ret false) = ([a], Ok b) ->
             (forall c, exists x, k c = ([], Raise x) \/
                                  exists a', k c = send_request env a' ok) ->
             b = ok code).
  { intros _ ok k Hk Hform.
    destruct (ch_config ch) as [c|]; simpl in Hk; [|done].
    destruct (Hform c) as [x [Hx|[a' Ha']]].
    - rewrite Hx in Hk. simpl in Hk. done.
    - rewrite Ha' in Hk. destruct (send_request_ok env a' ok) as [b' [Hb' Hok]].
      rewrite Hb' in Hk. simpl in Hk. injection Hk as <- <-. by apply Hok. }
  split.
  - intros Ht. rewrite Ht in Hs. simpl in Hs.
    apply (Hgen ([], Ok JNull) (fun code => code <? 400) _ Hs).
    intros c. unfold send_webhook, nm_lift, nm_bind.
    destruct (cfg_key "url" c) as [u|x]; cbn; [|by (exists x; left)].
    destruct (nm_type m) as [t|]; [|by (eexists; left)].
    exists (mkExn OtherError ""). right. exists (NPost u).
    by destruct (send_request env (NPost u) _).
  - intros Ht. repeat (apply elem_of_cons in Ht as [Ht|Ht]);
      [..|by apply elem_of_nil in Ht]; rewrite Ht in Hs; simpl in Hs;
      apply (Hgen ([], Ok JNull) (fun code => code =? 200) _ Hs); intros c;
      unfold send_wechat, send_telegram, send_bark, send_pushplus, send_serverchan, nm_lift, nm_bind.
    + destruct (cfg_key "webhook_url" c) as [u|x]; cbn; [|by (exists x; left)].
      exists (mkExn OtherError ""). right. exists (NPost u). by destruct (send_request _ _ _).
    + destruct (cfg_key "bot_token" c) as [u|x]; cbn; [|by (exists x; left)].
      destruct (cfg_key "chat_id" c) as [v|x]; cbn; [|by (exists x; left)].
      exists (mkExn OtherError ""). right.
      match goal with |- context [send_request env ?a' _] => exists a'; by destruct (send_request env a' _) end.
    + destruct (cfg_key "key" c) as [u|x]; cbn; [|by (exists x; left)].
      exists (mkExn OtherError ""). right.
      match goal with |- context [send_request env ?a' _] => exists a'; by destruct (send_request env a' _) end.
    + destruct (cfg_key "token" c) as [u|x]; cbn; [|by (exists x; left)].
      exists (mkExn OtherError ""). right.
      match goal with |- context [send_request env ?a' _] => exists a'; by destruct (send_request env a' _) end.
    + destruct (cfg_key "sendkey" c) as [u|x]; cbn; [|by (exists x; left)].
      exists (mkExn OtherError ""). right.
      match goal with |- context [send_request env ?a' _] => exists a'; by destruct (send_request env a' _) end.
Qed.

(** [send_notification]: nothing is sent when the monitor's
    [notify_channels] is empty or not valid JSON; otherwise exactly the
    enabled channels it lists are tried, each once per table row, in table
    order. *)
Theorem send_notification_targets (env : NEnv) (channels : list Channel) (m : NotifyMonitor)
    (status : Z) (message : string) :
  ((nm_notify_channels m = None \/ nm_notify_channels m = Some []) ->
   send_notification env channels m status message = []) /\
  (forall ids, nm_notify_channels m = Some ids ->
   send_notification env channels m status message =
   map (fun ch => (ch_id ch, notifier_send env ch m status message))
       (List.filter (fun ch => bool_decide (ch_id ch ∈ ids) && negb (ch_enabled ch =? 0)) channels)) /\
  (forall cid r, (cid, r) ∈ send_notification env channels m status message ->
   exists ch ids, ch ∈ channels /\ ch_id ch = cid /\ ch_enabled ch <> 0 /\
     nm_notify_channels m = Some ids /\ cid ∈ ids /\ r = notifier_send env ch m status message).
Proof.
  unfold send_notification. split; [|split].
  - by intros [-> | ->].
  - intros ids ->. simpl. destruct ids; [|done]. simpl.
    induction channels as [|ch chs IH]; [done|]. exact IH.
  - intros cid r Hin. destruct (nm_notify_channels m) as [ids|] eqn:Eids; simpl in Hin;
      [|by apply elem_of_nil in Hin].
    destruct ids as [|i ids]; [by apply elem_of_nil in Hin|].
    apply list_elem_of_In, in_map_iff in Hin as (ch & [= <- <-] & Hch).
    apply filter_In in Hch as [Hch Hf]. apply andb_true_iff in Hf as [Hid Hen].
    apply bool_decide_eq_true in Hid. apply negb_true_iff, Z.eqb_neq in Hen.
    exists ch, (i :: ids). repeat split; auto. by apply list_elem_of_In.
Qed.

(* ------------------------------------------------------------------ *)
(** ** The dashboard *)

Section DashboardSpec.
Variable newest : list LogRow -> option LogRow.

Lemma current_status_fold (logs : list LogRow) (mid : Z) (ts : list string) :
  forall acc, (acc = 0 \/ acc = 1) ->
  let res := fold_left (fun overall t =>
               match get_latest_status newest logs mid (Some t) with
               | Some r => if log_status r =? 0 then 0 else overall
               | None => overall
               end) ts acc in
  (res = 0 \/ res = 1) /\
  (res = 0 <-> acc = 0 \/ exists t r, t ∈ ts /\ get_latest_status newest logs mid (Some t) = Some r /\
                                      log_status r = 0).
Proof.
  induction ts as [|t ts IH]; intros acc Hacc; simpl.
  - split; [done|]. split; [by left|]. intros [H|(t & r & Ht & _)]; [done|by apply elem_of_nil in Ht].
  - destruct (get_latest_status newest logs mid (Some t)) as [r|] eqn:Er;
      [destruct (Z.eqb_spec (log_status r) 0) as [Hs|Hs]|].
    all: match goal with |- context [fold_left _ _ ?a] =>
           assert (Ha : a = 0 \/ a = 1) by auto; destruct (IH a Ha) as [Hb Hiff] end.
    all: split; [done|]; rewrite Hiff; split.
    + intros _. right. exists t, r. repeat split; [by left|done|done].
    + intros _. by left.
    + intros [H|(t' & r' & Ht' & Hr' & Hs')]; [by left|].
      right. exists t', r'. repeat split; [by right|done|done].
    + intros [H|(t' & r' & Ht' & Hr' & Hs')]; [by left|].
      apply elem_of_cons in Ht' as [->|Ht'].
      * rewrite Er in Hr'. injection Hr' as <-. done.
      * right. by exists t', r'.
    + intros [H|(t' & r' & Ht' & Hr' & Hs')]; [by left|].
      right. exists t', r'. repeat split; [by right|done|done].
    + intros [H|(t' & r' & Ht' & Hr' & Hs')]; [by left|].
      apply elem_of_cons in Ht' as [->|Ht'].
      * by rewrite Er in Hr'.
      * right. by exists t', r'.
Qed.

(** [api_get_monitors]: [current_status] is 0 or 1, and 0 exactly when one
    of the monitor's types (push included) has a newest log row with
    status 0; a type never checked yet does not count as down. *)
Theorem current_status_down (logs : list LogRow) (m : Monitor) :
  (current_status newest logs m = 0 \/ current_status newest logs m = 1) /\
  (current_status newest logs m = 0 <->
   exists t r, t ∈ parse_types m /\ get_latest_status newest logs (m_id m) (Some t) = Some r /\
               log_status r = 0).
Proof.
  destruct (current_status_fold logs (m_id m) (parse_types m) 1 (or_intror eq_refl)) as [H1 H2].
  unfold current_status. split; [done|]. rewrite H2. split; [|by right].
  by intros [H|H].
Qed.

(** A monitor with no log row yet is shown with every type 'waiting'
    (status 0) and counted online by [api_get_monitors], but counted
    offline by [api_get_stats]. *)
Theorem unchecked_monitor_stats (logs : list LogRow) (m : Monitor) :
  newest [] = None ->
  (forall r, r ∈ logs -> log_monitor r <> m_id m) ->
  (forall t, type_result newest logs m t = (0, "等待检查")) /\
  current_status newest logs m = 1 /\
  monitors_stats newest logs [m] = (1, 1, 0) /\
  api_stats_counts newest logs [m] = (1, 0, 1).
Proof.
  intros Hempty Hno.
  assert (Hf : forall ct, List.filter (fun r => (log_monitor r =? m_id m) &&
                                match ct with
                                | Some t => String.eqb (log_type r) t
                                | None => true
                                end) logs = []).
  { intros ct. clear Hempty. induction logs as [|r rs IH]; [done|]. simpl.
    destruct (Z.eqb_spec (log_monitor r) (m_id m)) as [E|E].
    - exfalso. by apply (Hno r); [left|].
    - apply IH. intros r' Hr'. apply Hno. by right. }
  assert (Hl : forall ct, get_latest_status newest logs (m_id m) ct = None).
  { intros ct. unfold get_latest_status. by rewrite Hf. }
  assert (Hc : current_status newest logs m = 1).
  { unfold current_status. induction (parse_types m) as [|t ts IH]; [done|]. simpl. by rewrite Hl. }
  split; [|split; [done|split]].
  - intros t. unfold type_result. by rewrite Hl.
  - unfold monitors_stats. simpl. by rewrite Hc.
  - unfold api_stats_counts. simpl. by rewrite Hl.
Qed.

End DashboardSpec.

(* ------------------------------------------------------------------ *)
(** ** Witnesses of the properties above *)

Lemma check_port_embedded_port_witness :
  m_target (target_monitor "port" "example.com:8080" (HDict [])) =
    "example.com" +:+ String colon "8080" /\
  exists r, check_port (fixture_env 200 "" 0 0 (fun _ => None))
                       (target_monitor "port" "example.com:8080" (HDict [])) =
            ([ActTcp "example.com" 8080], Ok r) /\
            (status r = 1 <-> w_tcp (fixture_env 200 "" 0 0 (fun _ => None)) "example.com" 8080 = Ok 0).
Proof.
  split; [reflexivity|].
  apply (check_port_embedded_port _ _ "example.com" "8080" 8080); reflexivity.
Defined.

Lemma check_port_bad_port_witness :
  w_int (fixture_env 200 "" 0 0 (fun _ => None)) "http" =
    Raise (mkExn ValueError "invalid literal for int() with base 10: 'http'") /\
  check (fixture_env 200 "" 0 0 (fun _ => None)) (target_monitor "port" "example.com:http" (HDict [])) =
    ([], Ok (mkResult 0 0 0 "invalid literal for int() with base 10: 'http'")).
Proof.
  split; [reflexivity|].
  apply (check_port_bad_port _ _ "example.com" "http"
           (mkExn ValueError "invalid literal for int() with base 10: 'http'"));
    [left|..]; reflexivity.
Defined.

Lemma check_port_ping_default_port_witness :
  py_contains (String colon EmptyString) "example.com" = false /\
  (check_port (fixture_env 200 "" 0 0 (fun _ => None)) (target_monitor "ping" "example.com" (HDict []))).1 =
    [ActTcp "example.com" 3306] /\
  (check_ping (fixture_env 200 "" 0 0 (fun _ => None)) (target_monitor "ping" "example.com" (HDict []))).1 =
    [ActTcp "example.com" 80].
Proof.
  split; [reflexivity|].
  apply (check_port_ping_default_port (fixture_env 200 "" 0 0 (fun _ => None))
           (target_monitor "ping" "example.com" (HDict []))).
  reflexivity.
Defined.

Lemma check_ssl_cert_host_witness :
  py_startswith "http" "example.com:8443" = false /\
  (check_ssl_cert (fixture_env 200 "" 0 0 (fun _ => None))
                  (target_monitor "ssl" "example.com:8443" (HDict []))).1 =
    [ActTls "example.com" 443].
Proof.
  split; [reflexivity|].
  apply (check_ssl_cert_host _ _ "example.com" "8443"); [reflexivity|right; reflexivity|reflexivity].
Defined.

Lemma mysql_params_round_trip_witness :
  w_int (fixture_env 200 "" 0 0 (fun _ => None)) "3307" = Ok 3307 /\
  mysql_params (fixture_env 200 "" 0 0 (fun _ => None))
    ("app" +:+ String colon ("p:w" +:+ String at_sign
       ("db.local" +:+ String colon ("3307" +:+ String slash "shop")))) =
  Ok ("app", "p:w", "shop", "db.local", 3307).
Proof.
  split; [reflexivity|].
  apply mysql_params_round_trip; reflexivity.
Defined.

Lemma connection_default_ports_witness :
  m_target (target_monitor "redis" "redis://cache" (HDict [])) = "redis://" +:+ "cache" /\
  mysql_params (fixture_env 200 "" 0 0 (fun _ => None)) "cache" = Ok ("root", "", "", "cache", 3306) /\
  (check_redis (fixture_env 200 "" 0 0 (fun _ => None))
               (target_monitor "redis" "redis://cache" (HDict []))).1 = [ActRedis "cache" 6379].
Proof.
  split; [reflexivity|].
  apply connection_default_ports; reflexivity.
Defined.

Lemma check_http_headers_witness :
  m_headers (target_monitor "http" "https://example.com" (HDict [("Accept", "*/*")])) =
    HDict [("Accept", "*/*")] /\
  exists req, (check_http (fixture_env 200 "" 0 0 (fun _ => None))
                 (target_monitor "http" "https://example.com" (HDict [("Accept", "*/*")]))).1 =
              [ActHttp req] /\ req_url req = "https://example.com" /\
    (exists rest, req_headers req = [("Accept", "*/*")] ++ rest) /\
    (exists v, ("User-Agent", v) ∈ req_headers req) /\
    ((exists v, ("User-Agent", v) ∈ [("Accept", "*/*")]) -> req_headers req = [("Accept", "*/*")]).
Proof.
  split; [reflexivity|].
  apply (check_http_headers _ (target_monitor "http" "https://example.com" (HDict [("Accept", "*/*")]))).
  reflexivity.
Defined.

Lemma check_http_request_failure_witness :
  (forall r, w_http timeout_env r = Raise (mkExn ReqTimeout "timed out")) /\
  exists req r, check_http timeout_env http_monitor = ([ActHttp req], Ok r) /\
    status r = 0 /\ status_code r = 0 /\ response_time r = 30 * 1000.
Proof.
  assert (Hw : forall r, w_http timeout_env r = Raise (mkExn ReqTimeout "timed out")) by reflexivity.
  split; [exact Hw|].
  apply (check_http_request_failure timeout_env http_monitor (mkExn ReqTimeout "timed out"));
    [intros k; discriminate|exact Hw].
Defined.

Lemma check_nondict_headers_witness :
  select_checker (m_type (target_monitor "keyword" "https://example.com" (HNonDict JKInt))) = CkKeyword /\
  check (fixture_env 200 "" 0 0 (fun _ => None))
        (target_monitor "keyword" "https://example.com" (HNonDict JKInt)) =
    ([], Ok (mkResult 0 0 0 "'int' object has no attribute 'setdefault'")).
Proof.
  split; [reflexivity|].
  exact (check_nondict_headers (fixture_env 200 "" 0 0 (fun _ => None))
           (target_monitor "keyword" "https://example.com" (HNonDict JKInt)) JKInt
           eq_refl (or_intror eq_refl)).
Defined.

Lemma check_monitor_skips_push_witness :
  check_monitor probe_down (fixture_monitor "http" ["push"; "http"] "") ∅ =
  check_monitor (fun i m' => if String.eqb (m_type m') "push" then mkResult 1 0 0 "OK" else probe_down i m')
                (fixture_monitor "http" ["push"; "http"] "") ∅.
Proof.
  apply check_monitor_skips_push.
  intros i m' Hm. apply String.eqb_neq in Hm. by rewrite Hm.
Defined.

Lemma first_tick_no_alert_witness :
  (∅ : LastStatus) !! m_id http_monitor = None /\
  (check_monitor probe_down http_monitor ∅).2 = map log_effect (tick_obs probe_down http_monitor).
Proof.
  split; [reflexivity|].
  apply first_tick_no_alert; [reflexivity|]. apply NoDup_singleton.
Defined.

Lemma schedule_monitor_jobs_witness :
  jobs_keyed tracked_state /\
  jobs_keyed (schedule_monitor http_monitor tracked_state) /\
  jobs (schedule_monitor http_monitor tracked_state) !! job_id 1 = Some http_monitor /\
  (forall id, id <> 1 -> jobs (schedule_monitor http_monitor tracked_state) !! job_id id =
                         jobs tracked_state !! job_id id).
Proof.
  assert (Hk : jobs_keyed tracked_state).
  { intros j m Hj. simpl in Hj. by apply lookup_singleton_Some in Hj as [<- <-]. }
  split; [exact Hk|].
  exact (schedule_monitor_jobs http_monitor tracked_state Hk).
Defined.

Lemma check_now_overall_status_witness :
  monitors tracked_state !! 1 = Some http_monitor /\
  exists overall results,
    (api_check_now 1 probe_down tracked_state).2 = Some (overall, results) /\
    (forall t, is_Some (results !! t) <-> t ∈ ["http"] /\ t <> "push") /\
    (overall = 0 <-> exists t r, results !! t = Some r /\ status r = 0) /\
    (overall = 0 \/ overall = 1).
Proof.
  split; [reflexivity|].
  apply (check_now_overall_status 1 probe_down tracked_state http_monitor);
    [reflexivity|apply NoDup_singleton].
Defined.

Lemma push_records_heartbeat_witness :
  api_push_heartbeat py_int "1" push_request_ok 1000 "2026-01-01 08:00:00" after_push =
    Ok (after_second_push, 200) /\
  last_heartbeat after_second_push 1 = last_heartbeat after_push 1.
Proof.
  assert (H : api_push_heartbeat py_int "1" push_request_ok 1000 "2026-01-01 08:00:00" after_push =
              Ok (after_second_push, 200)) by (vm_compute; reflexivity).
  split; [exact H|].
  destruct (push_records_heartbeat _ _ _ _ _ _ _ _ H)
    as [[Hc _]|[_ (k & m & s & msg & Hk & _ & _ & _ & _ & _ & Htie & _)]]; [discriminate|].
  change (monitors after_push) with ({[1 := push_monitor]} : gmap Z Monitor) in Hk.
  apply lookup_singleton_Some in Hk as [_ <-].
  change (heartbeats after_push) with [(1, mkHeartbeat 2 "OK" 1000 "2026-01-01 08:00:00")] in Htie.
  apply Htie.
  - intros h Hh. apply list_elem_of_singleton in Hh. injection Hh as ->. simpl. lia.
  - exists (mkHeartbeat 2 "OK" 1000 "2026-01-01 08:00:00"). split; [by left|reflexivity].
Defined.

Lemma push_unknown_token_witness :
  api_push_heartbeat py_int "2" push_request_status_2 1000 "2026-01-01 08:00:00" before_push =
    Ok (before_push, 404).
Proof.
  apply push_unknown_token.
  intros k m Hk _. simpl in Hk. apply lookup_singleton_Some in Hk as [_ <-].
  split; [vm_compute; discriminate|discriminate].
Defined.

Lemma check_auth_bearer_witness :
  py_contains "Bearer " "3f9a" = false /\
  check_auth (Some ("Bearer " +:+ "3f9a")) admin_state = bool_decide ("3f9a" ∈ admin_tokens admin_state) /\
  check_auth (Some "3f9a") admin_state = bool_decide ("3f9a" ∈ admin_tokens admin_state).
Proof.
  split; [reflexivity|]. apply check_auth_bearer. reflexivity.
Defined.

Lemma auth_setup_once_witness :
  api_auth_setup toy_hash (login_body "root" "secret1") (mkAuth None ∅) =
    (mkAuth (Some (mkAdmin "root" (toy_hash "secret1"))) ∅, 200) /\
  ((200 = 200 /\ auth_admin (mkAuth None ∅) = None /\
    (6 <= py_len (default "" (ab_password (login_body "root" "secret1"))))%nat /\
    mkAuth (Some (mkAdmin "root" (toy_hash "secret1"))) ∅ =
    mkAuth (Some (mkAdmin (default "admin" (ab_username (login_body "root" "secret1")))
                          (toy_hash (default "" (ab_password (login_body "root" "secret1"))))))
           (admin_tokens (mkAuth None ∅))) \/
   (200 = 400 /\ mkAuth (Some (mkAdmin "root" (toy_hash "secret1"))) ∅ = mkAuth None ∅)).
Proof.
  assert (H : api_auth_setup toy_hash (login_body "root" "secret1") (mkAuth None ∅) =
              (mkAuth (Some (mkAdmin "root" (toy_hash "secret1"))) ∅, 200)) by reflexivity.
  split; [exact H|]. exact (auth_setup_once _ _ _ _ _ H).
Defined.

Lemma auth_login_witness :
  api_auth_login toy_hash "3f9a" (login_body "admin" "secret1") admin_state =
    ((api_auth_login toy_hash "3f9a" (login_body "admin" "secret1") admin_state).1.1, 200, Some "3f9a") /\
  check_auth (Some ("Bearer " +:+ "3f9a"))
             (api_auth_login toy_hash "3f9a" (login_body "admin" "secret1") admin_state).1.1 = true.
Proof.
  assert (H : api_auth_login toy_hash "3f9a" (login_body "admin" "secret1") admin_state =
    ((api_auth_login toy_hash "3f9a" (login_body "admin" "secret1") admin_state).1.1, 200, Some "3f9a"))
    by reflexivity.
  split; [exact H|].
  destruct (auth_login _ _ _ _ _ _ _ H) as [(_ & _ & _ & _ & _ & Hc)|(Hc & _)]; [|discriminate].
  apply Hc. reflexivity.
Defined.

Lemma auth_password_change_witness :
  api_auth_password toy_hash (Some "Bearer 3f9a") (password_body "secret1" "secret22") admin_state =
    Ok (mkAuth (Some (mkAdmin "admin" (toy_hash "secret22"))) {[ "3f9a" ]}, 200) /\
  admin_tokens (mkAuth (Some (mkAdmin "admin" (toy_hash "secret22"))) {[ "3f9a" ]}) =
    admin_tokens admin_state.
Proof.
  assert (H : api_auth_password toy_hash (Some "Bearer 3f9a") (password_body "secret1" "secret22")
                admin_state =
              Ok (mkAuth (Some (mkAdmin "admin" (toy_hash "secret22"))) {[ "3f9a" ]}, 200))
    by (vm_compute; reflexivity).
  split; [exact H|]. exact (proj1 (auth_password_change _ _ _ _ _ _ H)).
Defined.

Lemma webhook_needs_type_witness :
  ch_type webhook_channel = "webhook" /\ nm_type notify_row = None /\
  notifier_send (notify_env 200) webhook_channel notify_row 0 "[HTTP] 状态码 500" = ([], Ok false).
Proof.
  split; [reflexivity|]. split; [reflexivity|].
  apply webhook_needs_type; reflexivity.
Defined.

Lemma notifier_success_rule_witness :
  notifier_send (notify_env 201) wechat_channel notify_row 0 "[HTTP] 状态码 500" =
    ([NPost (JStr "https://qyapi.weixin.qq.com/hook")], Ok false) /\
  (ch_type wechat_channel ∈ ["wechat"; "telegram"; "bark"; "pushplus"; "serverchan"] ->
   false = (201 =? 200)).
Proof.
  assert (H : notifier_send (notify_env 201) wechat_channel notify_row 0 "[HTTP] 状态码 500" =
              ([NPost (JStr "https://qyapi.weixin.qq.com/hook")], Ok false)) by (vm_compute; reflexivity).
  split; [exact H|].
  exact (proj2 (notifier_success_rule _ _ _ _ _ _ 201 _ H eq_refl)).
Defined.

Lemma unchecked_monitor_stats_witness :
  (forall r, r ∈ [mkLog 2 "http" 0 0 0 "连接失败"] -> log_monitor r <> m_id http_monitor) /\
  monitors_stats last [mkLog 2 "http" 0 0 0 "连接失败"] [http_monitor] = (1, 1, 0) /\
  api_stats_counts last [mkLog 2 "http" 0 0 0 "连接失败"] [http_monitor] = (1, 0, 1).
Proof.
  assert (Hno : forall r, r ∈ [mkLog 2 "http" 0 0 0 "连接失败"] -> log_monitor r <> m_id http_monitor).
  { intros r Hr. apply list_elem_of_singleton in Hr. subst r. discriminate. }
  split; [exact Hno|].
  destruct (unchecked_monitor_stats last _ http_monitor eq_refl Hno) as (_ & _ & H1 & H2).
  split; [exact H1|exact H2].
Defined.

Lemma check_push_utc_created_at_witness :
  w_now (fixture_env 200 "" (local_now 1767225600 shanghai_offset) 0 (last_heartbeat fresh_push)) =
    local_now (1767225600 + 0) shanghai_offset /\
  (check_push (fixture_env 200 "" (local_now 1767225600 shanghai_offset) 0 (last_heartbeat fresh_push))
              push_monitor).2 =
    Ok (failed 0 ("心跳超时，上次: " +:+ "2026-01-01 00:00:00")).
Proof.
  split; [reflexivity|].
  exact (check_push_utc_created_at
           (fixture_env 200 "" (local_now 1767225600 shanghai_offset) 0 (last_heartbeat fresh_push))
           push_monitor (mkHeartbeat 1 "OK" 1767225600 "2026-01-01 00:00:00") 1767225600 0 shanghai_offset
           ltac:(vm_compute; reflexivity) eq_refl eq_refl ltac:(vm_compute; reflexivity)).
Defined.
